(** * MRE-PINN: the wave-equation residual operators of [mre_pinn/pde.py]
      and the PINO training pipeline of [mre_pinn/training/pino_training.py]

    The Python code is embedded shallowly.  Tensors are NumPy/PyTorch style
    n-dimensional arrays: a shape and a row-major buffer.  Scalars are taken
    from a [Scalar] structure, so that one and the same embedded function can
    be run on plain real numbers (idealised floating point) and on dual
    numbers, which carry the derivative with respect to a network parameter
    next to the value and so model what reverse-mode differentiation
    computes for that parameter.  Python exceptions are values of [exn]. *)

From Stdlib Require Import Reals Lra Lia ZArith.
From stdpp Require Import gmap strings list.

(** ** Python exceptions and fallible computations *)

Inductive exn :=
| NameError (name : string)
| KeyError (key : string)
| AttributeError (attr : string)
| IndexError
| ValueError
| TypeError
| RuntimeError.

Inductive res (A : Type) :=
| Ok (a : A)
| Raise (e : exn).
Arguments Ok {A} a.
Arguments Raise {A} e.

#[global] Instance res_ret : MRet res := fun A a => Ok a.
#[global] Instance res_bind : MBind res :=
  fun A B f m => match m with Ok a => f a | Raise e => Raise e end.
#[global] Instance res_fmap : FMap res :=
  fun A B f m => match m with Ok a => Ok (f a) | Raise e => Raise e end.

(** [for x in xs: ys.append(f x)] with a body that may raise. *)
Fixpoint for_each {A B} (f : A -> res B) (xs : list A) : res (list B) :=
  match xs with
  | [] => Ok []
  | x :: xs' => y ← f x; ys ← for_each f xs'; Ok (y :: ys)
  end.

(** ** Scalars *)

Class Scalar (T : Type) := {
  s_const : R -> T;
  s_add : T -> T -> T;
  s_sub : T -> T -> T;
  s_mul : T -> T -> T;
  s_div : T -> T -> T;
  s_pow : T -> nat -> T;
  s_detach : T -> T
}.

(** Plain values: nothing to detach. *)
#[global] Instance R_scalar : Scalar R := {|
  s_const := fun c => c;
  s_add := Rplus;
  s_sub := Rminus;
  s_mul := Rmult;
  s_div := Rdiv;
  s_pow := pow;
  s_detach := fun a => a
|}.

(** A value together with its derivative with respect to one (arbitrary
    but fixed) trainable parameter. *)
Record Dual := mkDual { primal : R; tangent : R }.

#[global] Instance Dual_scalar : Scalar Dual := {|
  s_const := fun c => mkDual c 0;
  s_add := fun a b => mkDual (primal a + primal b) (tangent a + tangent b);
  s_sub := fun a b => mkDual (primal a - primal b) (tangent a - tangent b);
  s_mul := fun a b =>
    mkDual (primal a * primal b) (tangent a * primal b + primal a * tangent b);
  s_div := fun a b =>
    mkDual (primal a / primal b)
           ((tangent a * primal b - primal a * tangent b) / (primal b * primal b));
  s_pow := fun a n =>
    mkDual (primal a ^ n) (INR n * primal a ^ (n - 1) * tangent a);
  s_detach := fun a => mkDual (primal a) 0
|}.

(** ** Tensors *)

Record Tensor (T : Type) := mkTensor {
  shape : list nat;
  data : list T;
  requires_grad : bool
}.
Arguments mkTensor {T} shape data requires_grad.
Arguments shape {T} t.
Arguments data {T} t.
Arguments requires_grad {T} t.

Definition numel (sh : list nat) : nat := foldr Nat.mul 1 sh.

Definition wf_tensor {T} (t : Tensor T) : Prop :=
  length (data t) = numel (shape t).

(** [count] consecutive blocks of [size] elements. *)
Fixpoint blocks {A} (count size : nat) (l : list A) : list (list A) :=
  match count with
  | 0 => []
  | S c => take size l :: blocks c size (drop size l)
  end.

(** Element [n, m] of a two-dimensional tensor. *)
Definition at2 {T} (dflt : T) (t : Tensor T) (n m : nat) : T :=
  nth (n * nth 1 (shape t) 0 + m) (data t) dflt.

(** [t.shape[i]] *)
Definition shape_at {T} (t : Tensor T) (i : nat) : res nat :=
  match shape t !! i with
  | Some d => Ok d
  | None => Raise IndexError
  end.

(** Python slice bounds on an axis of length [n]: a negative bound counts
    from the end, and bounds are clamped to the axis. *)
Definition norm_bound (n : nat) (b : Z) : nat :=
  let b' := if (b <? 0)%Z then (b + Z.of_nat n)%Z else b in
  Z.to_nat (Z.min (Z.max b' 0) (Z.of_nat n)).

(** First index and length of [start:stop]. *)
Definition py_slice (start stop : option Z) (n : nat) : nat * nat :=
  let b := from_option (norm_bound n) 0 start in
  let e := from_option (norm_bound n) n stop in
  (b, e - b).

(** [t[:, start:stop]] *)
Definition slice_axis1 {T} (start stop : option Z) (t : Tensor T)
  : res (Tensor T) :=
  match shape t with
  | d0 :: d1 :: rest =>
      let '(b, len) := py_slice start stop d1 in
      let inner := numel rest in
      Ok (mkTensor (d0 :: len :: rest)
            (concat (map (fun row => take (len * inner) (drop (b * inner) row))
                         (blocks d0 (d1 * inner) (data t))))
            (requires_grad t))
  | _ => Raise IndexError
  end.

Definition cat_shape_ok (d : nat) (sh0 sh : list nat) : bool :=
  bool_decide (d < length sh /\ take d sh0 = take d sh
               /\ drop (S d) sh0 = drop (S d) sh).

(** [torch.cat(ts, dim=d)] for a non-negative [d]. *)
Definition torch_cat {T} (ts : list (Tensor T)) (d : nat) : res (Tensor T) :=
  match ts with
  | [] => Raise RuntimeError
  | t0 :: _ =>
      if forallb (fun t => cat_shape_ok d (shape t0) (shape t)) ts then
        let outer := numel (take d (shape t0)) in
        let piece o t :=
          let b := numel (drop d (shape t)) in take b (drop (o * b) (data t)) in
        Ok (mkTensor
              (take d (shape t0)
                 ++ [sum_list (map (fun t => nth d (shape t) 0) ts)]
                 ++ drop (S d) (shape t0))
              (concat (map (fun o => concat (map (piece o) ts)) (seq 0 outer)))
              (existsb requires_grad ts))
      else Raise RuntimeError
  end.

(** [torch.cat(ts, dim=-1)] *)
Definition torch_cat_last {T} (ts : list (Tensor T)) : res (Tensor T) :=
  match ts with
  | [] => Raise RuntimeError
  | t0 :: _ =>
      match length (shape t0) with
      | 0 => Raise IndexError
      | S d => torch_cat ts d
      end
  end.

(** Broadcasting: shapes are aligned at the trailing axis, missing leading
    axes count as 1, and an axis of extent 1 is repeated. *)
Definition pad_shape (n : nat) (sh : list nat) : list nat :=
  replicate (n - length sh) 1 ++ sh.

Fixpoint broadcast_dims (a b : list nat) : option (list nat) :=
  match a, b with
  | [], [] => Some []
  | s :: a', t :: b' =>
      match broadcast_dims a' b' with
      | Some r =>
          if s =? t then Some (s :: r)
          else if s =? 1 then Some (t :: r)
          else if t =? 1 then Some (s :: r)
          else None
      | None => None
      end
  | _, _ => None
  end.

Fixpoint expand_data {A} (sh tg : list nat) (d : list A) : list A :=
  match sh, tg with
  | s :: sh', t :: tg' =>
      let bl := map (expand_data sh' tg') (blocks s (numel sh') d) in
      if s =? t then concat bl else concat (replicate t (concat bl))
  | _, _ => d
  end.

(** An elementwise binary operator of the tensor backend. *)
Definition tbin {T} (op : T -> T -> T) (a b : Tensor T) : res (Tensor T) :=
  let n := Nat.max (length (shape a)) (length (shape b)) in
  let sa := pad_shape n (shape a) in
  let sb := pad_shape n (shape b) in
  match broadcast_dims sa sb with
  | Some sh =>
      Ok (mkTensor sh
            (zip_with op (expand_data sa sh (data a)) (expand_data sb sh (data b)))
            (requires_grad a || requires_grad b))
  | None => Raise RuntimeError
  end.

(** [x.requires_grad = True] *)
Definition set_requires_grad {T} (x : Tensor T) : Tensor T :=
  mkTensor (shape x) (data x) true.

Definition tmap {T} (f : T -> T) (t : Tensor T) : Tensor T :=
  mkTensor (shape t) (map f (data t)) (requires_grad t).

Section TensorOps.
Context {T : Type} `{Scalar T}.

Definition tadd : Tensor T -> Tensor T -> res (Tensor T) := tbin s_add.
Definition tsub : Tensor T -> Tensor T -> res (Tensor T) := tbin s_sub.
Definition tmul : Tensor T -> Tensor T -> res (Tensor T) := tbin s_mul.
Definition tdiv : Tensor T -> Tensor T -> res (Tensor T) := tbin s_div.

(** [c * t] and [c + t] for a Python number [c] *)
Definition tscale (c : R) (t : Tensor T) : Tensor T :=
  tmap (fun e => s_mul (s_const c) e) t.
Definition tshift (c : R) (t : Tensor T) : Tensor T :=
  tmap (fun e => s_add (s_const c) e) t.

(** [t ** n] *)
Definition tpow (t : Tensor T) (n : nat) : Tensor T :=
  tmap (fun e => s_pow e n) t.

(** [t.detach()] *)
Definition tdetach (t : Tensor T) : Tensor T :=
  mkTensor (shape t) (map s_detach (data t)) false.
End TensorOps.

(** ** [mre_pinn/pde.py] *)

Section PDE.
Context {T : Type} `{Scalar T}.

(** [deepxde.grad.hessian(u, x, component=c, i=i, j=j)], the automatic
    differentiation primitive of the backend. *)
Variable hessian :
  Tensor T -> Tensor T -> option nat -> nat -> nat -> res (Tensor T).

(** The accumulator [component] of [laplacian]: the Python integer it is
    initialised with, or a tensor. *)
Inductive pyval :=
| PyNum (c : R)
| PyTensor (t : Tensor T).

(** [component += h] *)
Definition iadd (component : pyval) (h : Tensor T) : res pyval :=
  match component with
  | PyNum c => Ok (PyTensor (tshift c h))
  | PyTensor t => PyTensor <$> tadd t h
  end.

(** [torch.cat(components, dim=1)] on a Python list. *)
Definition cat_components (components : list pyval) : res (Tensor T) :=
  ts ← for_each (fun v => match v with
                          | PyTensor t => Ok t
                          | PyNum _ => Raise TypeError
                          end) components;
  torch_cat ts 1.

Fixpoint laplacian_sum (u x : Tensor T) (c : option nat) (js : list nat)
    (component : pyval) : res pyval :=
  match js with
  | [] => Ok component
  | j :: js' =>
      h ← hessian u x c j j;
      component' ← iadd component h;
      laplacian_sum u x c js' component'
  end.

Definition laplacian (u x : Tensor T) (dim : nat) : res (Tensor T) :=
  M ← shape_at u 1;
  components ← for_each (fun i =>
      let c := if 1 <? M then Some i else None in
      K ← shape_at x 1;
      laplacian_sum u x c (seq dim (K - dim)) (PyNum 0)) (seq 0 M);
  cat_components components.

Record WaveEquation := mkWaveEquation {
  detach : bool;
  rho : R;
  homogeneous : bool;
  incompressible : bool;
  debug : bool
}.

(** [WaveEquation.__init__(self, detach, rho=1000, debug=False)] *)
Definition WaveEquation_init (detach : bool) (rho : option R)
    (debug : option bool) : WaveEquation :=
  mkWaveEquation detach (default 1000%R rho) true true (default false debug).

(** [WaveEquation.__call__(self, x, outputs)] *)
Definition WaveEquation_call (self : WaveEquation) (x outputs : Tensor T)
  : res (Tensor T) :=
  u ← slice_axis1 None (Some (-1)%Z) outputs;
  mu ← slice_axis1 (Some (-1)%Z) None outputs;
  omega ← slice_axis1 None (Some 1%Z) x;
  laplace_u ← laplacian u x 1;
  let '(u, laplace_u) :=
    if detach self then (tdetach u, tdetach laplace_u) else (u, laplace_u) in
  div_stress ← tmul mu laplace_u;
  f ← tmul (tscale (rho self) (tpow (tscale (2 * PI) omega) 2)) u;
  tadd div_stress f.
End PDE.

(** Sum of a list of reals, as in the mathematical statement of the
    Laplacian. *)
Definition Rsum (l : list R) : R := foldr Rplus 0%R l.

(** The contract of the differentiation primitive on the indices [js] used
    for one output component [c]: [hessian(u, x, component=c, i=j, j=j)]
    returns the column [Hc j] of the [N] values of the second partial
    derivative along input dimension [j]. *)
Definition hessian_gives
    (hessian : Tensor R -> Tensor R -> option nat -> nat -> nat -> res (Tensor R))
    (u x : Tensor R) (N : nat) (c : option nat) (Hc : nat -> Tensor R)
    (js : list nat) : Prop :=
  forall j, j ∈ js ->
    hessian u x c j j = Ok (Hc j)
    /\ shape (Hc j) = [N; 1] /\ wf_tensor (Hc j).

(** What [detach] does to an operand of the residual, by the flag. *)
Definition maybe_detach {T} `{Scalar T} (flag : bool) (e : T) : T :=
  if flag then s_detach e else e.

(** A tensor none of whose entries depends on the tracked parameter. *)
Definition zero_tangent (t : Tensor Dual) : Prop :=
  Forall (fun e => tangent e = 0%R) (data t).

Definition dual_zero : Dual := mkDual 0 0.

(** ** NumPy *)

(** The state of NumPy's global random generator: the raw draws still to
    come.  Nothing is assumed about the draws, so that every outcome of a
    random call is covered. *)
Record RandomState := mkRandomState {
  raw : nat -> nat;
  consumed : nat
}.

Definition next_raw (g : RandomState) : nat * RandomState :=
  (raw g (consumed g), mkRandomState (raw g) (S (consumed g))).

(** A computation that may raise and that draws random numbers. *)
Definition Rand (A : Type) : Type := RandomState -> res A * RandomState.

#[global] Instance Rand_ret : MRet Rand := fun A a g => (Ok a, g).
#[global] Instance Rand_bind : MBind Rand :=
  fun A B f m g =>
    match m g with
    | (Ok a, g') => f a g'
    | (Raise e, g') => (Raise e, g')
    end.

Definition lift {A} (r : res A) : Rand A := fun g => (r, g).

(** [np.random.randint(high)]: uniform on [0, high), [ValueError] when the
    range is empty. *)
Definition randint (high : Z) : Rand nat :=
  fun g =>
    if (high <=? 0)%Z then (Raise ValueError, g)
    else let '(r, g') := next_raw g in (Ok (r mod Z.to_nat high), g').

(** [np.random.shuffle]: a random permutation, here by drawing the
    elements one after the other from the remaining pool. *)
Fixpoint shuffle_pick (fuel : nat) (pool : list nat) (g : RandomState)
  : list nat * RandomState :=
  match fuel with
  | 0 => ([], g)
  | S fuel' =>
      let '(r, g') := next_raw g in
      let j := r mod length pool in
      match pool !! j with
      | Some v =>
          let '(rest, g'') := shuffle_pick fuel' (delete j pool) g' in
          (v :: rest, g'')
      | None => ([], g')
      end
  end.

Definition shuffle (l : list nat) (g : RandomState) : list nat * RandomState :=
  shuffle_pick (length l) l g.

Record ndarray := mkArray {
  a_shape : list nat;
  a_data : list R
}.

(** [np.stack(arrs, axis=-1)] *)
Definition np_stack_last (arrs : list ndarray) : res ndarray :=
  match arrs with
  | [] => Raise ValueError
  | a0 :: _ =>
      if forallb (fun a => bool_decide (a_shape a = a_shape a0)) arrs then
        Ok (mkArray (a_shape a0 ++ [length arrs])
              (concat (map (fun i => map (fun a => nth i (a_data a) 0%R) arrs)
                           (seq 0 (numel (a_shape a0))))))
      else Raise ValueError
  end.

(** [a[..., None]] *)
Definition expand_last (a : ndarray) : ndarray :=
  mkArray (a_shape a ++ [1]) (a_data a).

(** [a * c] for a Python float [c] *)
Definition np_scale (a : ndarray) (c : R) : ndarray :=
  mkArray (a_shape a) (map (fun v => (v * c)%R) (a_data a)).

(** [a[px:px + P, py:py + P]] *)
Definition crop2 (px py P : nat) (a : ndarray) : res ndarray :=
  match a_shape a with
  | d0 :: d1 :: rest =>
      let inner := numel rest in
      let '(b0, l0) :=
        py_slice (Some (Z.of_nat px)) (Some (Z.of_nat (px + P))) d0 in
      let '(b1, l1) :=
        py_slice (Some (Z.of_nat py)) (Some (Z.of_nat (py + P))) d1 in
      Ok (mkArray (l0 :: l1 :: rest)
            (concat (map (fun plane =>
                            concat (take l1 (drop b1 (blocks d1 inner plane))))
                         (take l0 (drop b0 (blocks d0 (d1 * inner) (a_data a)))))))
  | _ => Raise IndexError
  end.

(** [torch.tensor(a, device=..., dtype=torch.float32)].  Rounding to single
    precision and device placement are not modelled. *)
Definition torch_tensor (a : ndarray) (device : string) : Tensor R :=
  mkTensor (a_shape a) (a_data a) false.

(** [torch.stack(ts)]: a new leading axis. *)
Definition torch_stack {T} (ts : list (Tensor T)) : res (Tensor T) :=
  match ts with
  | [] => Raise RuntimeError
  | t0 :: _ =>
      if forallb (fun t => bool_decide (shape t = shape t0)) ts then
        Ok (mkTensor (length ts :: shape t0) (concat (map data ts))
              (existsb requires_grad ts))
      else Raise RuntimeError
  end.

(** [torch.split(t, 1, dim=-1)]: the slices of extent 1 along the last
    axis. [channel k t] is the [k]-th of them. *)
Definition channel {T} (k : nat) (t : Tensor T) : Tensor T :=
  let lead := take (length (shape t) - 1) (shape t) in
  let C := List.last (shape t) 0 in
  mkTensor (lead ++ [Nat.min 1 (C - k)])
    (concat (map (fun cell => take 1 (drop k cell))
                 (blocks (numel lead) C (data t))))
    (requires_grad t).

Definition torch_split_last {T} (t : Tensor T) : res (list (Tensor T)) :=
  match shape t with
  | [] => Raise IndexError
  | _ => Ok (map (fun k => channel k t)
               (seq 0 (Nat.max 1 (List.last (shape t) 0))))
  end.

(** [zip] applied to the unpacked list [rows]: the transposition, cut at
    the shortest row. *)
Definition py_zip {A} (rows : list (list A)) : list (list A) :=
  match rows with
  | [] => []
  | r0 :: rest =>
      map (fun i => omap (fun r => r !! i) rows)
          (seq 0 (foldr Nat.min (length r0) (map length rest)))
  end.

(** Tuple unpacking. *)
Definition unpack2 {A} (l : list A) : res (A * A) :=
  match l with
  | [a; b] => Ok (a, b)
  | _ => Raise ValueError
  end.

Definition unpack3 {A} (l : list A) : res (A * A * A) :=
  match l with
  | [a; b; c] => Ok (a, b, c)
  | _ => Raise ValueError
  end.

(** ** The cohort *)

(** A named array of a patient: its [values] and the coordinates
    [field.points(reshape=False)] of its grid points. *)
Record XArray := mkXArray {
  values : ndarray;
  points : ndarray
}.

Record Patient := mkPatient {
  arrays : gmap string XArray
}.

(** [patient.arrays[key]] *)
Definition get_array (patient : Patient) (key : string) : res XArray :=
  match arrays patient !! key with
  | Some xa => Ok xa
  | None => Raise (KeyError key)
  end.

(** [cohort[idx]] *)
Definition get_patient (cohort : list Patient) (idx : nat) : res Patient :=
  match cohort !! idx with
  | Some p => Ok p
  | None => Raise IndexError
  end.

(** ** Name resolution in [pino_training.py] *)

Inductive pyobj :=
| ObjArray (a : ndarray)
| ObjOther.

(** The names bound at module level. *)
Definition module_globals : list string :=
  ["time"; "np"; "xr"; "torch"; "deepxde"; "as_xarray"; "laplacian";
   "discrete"; "msae_loss"; "PINOData"; "PINOModel"].

(** A name is looked up among the locals of the running function, then
    among the module globals. *)
Definition resolve (name : string) (locals : list (string * pyobj))
  : res pyobj :=
  match list_find (fun kv => kv.1 = name) locals with
  | Some (_, (_, v)) => Ok v
  | None =>
      if bool_decide (name ∈ module_globals) then Ok ObjOther
      else Raise (NameError name)
  end.

(** [n_x, n_y, n_z = obj.shape[:3]] *)
Definition shape3 (obj : pyobj) : res (nat * nat * nat) :=
  match obj with
  | ObjArray a => unpack3 (take 3 (a_shape a))
  | ObjOther => Raise (AttributeError "shape")
  end.

(** ** [deepxde.data.BatchSampler] *)

Module BatchSampler.

(** Modelled from the spec: the state of the sampler, which deepxde keeps
    in [num_samples], [shuffle], [_indices], [_epochs_completed] and
    [_index_in_epoch]. *)
Record t := mk {
  num_samples : nat;
  shuffle_flag : bool;
  indices : list nat;
  epochs_completed : nat;
  index_in_epoch : nat
}.

(** Modelled from the spec: the sampler of deepxde is not part of the
    sources.  It keeps a per-epoch ordering of the indices, shuffled at
    construction and once each time the epoch is exhausted, together with
    the cursor into it. *)
Definition init (num_samples : nat) (shuffle_flag : bool) (g : RandomState)
  : t * RandomState :=
  let '(ind, g') :=
    if shuffle_flag then shuffle (seq 0 num_samples) g
    else (seq 0 num_samples, g) in
  (mk num_samples shuffle_flag ind 0 0, g').

(** Modelled from the spec: [get_next(batch_size)] draws the next
    [batch_size] indices of the ordering without replacement; when fewer
    are left, it takes those, reshuffles, and completes the batch from the
    new ordering. *)
Definition get_next (self : t) (batch_size : nat) (g : RandomState)
  : res (list nat) * t * RandomState :=
  if num_samples self <? batch_size then (Raise ValueError, self, g)
  else
    let start := index_in_epoch self in
    if start + batch_size <=? num_samples self then
      (Ok (take batch_size (drop start (indices self))),
       mk (num_samples self) (shuffle_flag self) (indices self)
          (epochs_completed self) (start + batch_size),
       g)
    else
      let rest_num_samples := num_samples self - start in
      let indices_rest_part :=
        take rest_num_samples (drop start (indices self)) in
      let '(ind, g') :=
        if shuffle_flag self then shuffle (indices self) g
        else (indices self, g) in
      let end_ := batch_size - rest_num_samples in
      (Ok (indices_rest_part ++ take end_ ind),
       mk (num_samples self) (shuffle_flag self) ind
          (S (epochs_completed self)) end_,
       g').

End BatchSampler.

(** ** The objects handed to the pipeline *)

(** The PDE object: it is called as [pde(x, u_pred, mu_pred)] and offers
    [traction_and_body_forces(x, u_pred, mu_pred)]. *)
Record PDEObject := mkPDEObject {
  pde_call : Tensor R -> Tensor R -> Tensor R -> res (Tensor R);
  traction_and_body_forces :
    Tensor R -> Tensor R -> Tensor R -> res (Tensor R * Tensor R)
}.

(** The network: [net.forward(inputs=(a, x), debug=...)]. *)
Record Net := mkNet {
  forward : Tensor R * Tensor R -> bool -> res (list (Tensor R))
}.

(** What [train_next_batch] returns; [b_inds] is present exactly in the
    four-element form of the result. *)
Record Batch := mkBatch {
  b_inputs : list (Tensor R);
  b_targets : Tensor R;
  b_aux_vars : list (Tensor R);
  b_inds : option (list nat)
}.

Fixpoint for_each_rand {A B} (f : A -> Rand B) (xs : list A) : Rand (list B) :=
  match xs with
  | [] => mret []
  | x :: xs' => y ← f x; ys ← for_each_rand f xs'; mret (y :: ys)
  end.

(** ** [mre_pinn/training/pino_training.py] *)

Definition a_sequences : list string :=
  ["t1_pre_in"; "t1_pre_out"; "t1_pre_water"; "t1_pre_fat"].

Module PINOData.

Record t := mk {
  cohort : list Patient;
  pde : PDEObject;
  mask_level : R;
  batch_sampler : BatchSampler.t;
  batch_size : option nat;
  patch_size : option nat;
  device : string
}.

(** [PINOData.__init__(self, cohort, pde, patch_size=None,
    batch_size=None, device='cuda')] *)
Definition init (cohort : list Patient) (pde : PDEObject)
    (patch_size batch_size : option nat) (device : option string)
    (g : RandomState) : t * RandomState :=
  let '(sampler, g') := BatchSampler.init (length cohort) true g in
  (mk cohort pde 1%R sampler batch_size patch_size (default "cuda" device),
   g').

(** [PINOData.losses(self, targets, outputs, loss_fn, inputs, model,
    aux=None)].  The first argument of [loss_fn] is a tensor or the
    Python number 0. *)
Definition losses {L Model Aux} (self : t) (targets : Tensor R)
    (outputs : list (Tensor R))
    (loss_fn : @pyval R -> Tensor R -> Tensor R -> R -> res L)
    (inputs : list (Tensor R)) (model : Model) (aux : option Aux)
  : res (list L) :=
  '(a, x) ← unpack2 inputs;
  chunks ← torch_split_last targets;
  '(u_true, mu_true, mask) ← unpack3 chunks;
  '(u_pred, mu_pred) ← unpack2 (take 2 outputs);
  u_loss ← loss_fn (PyTensor u_true) u_pred mask (mask_level self);
  mu_loss ← loss_fn (PyTensor mu_true) mu_pred mask (mask_level self);
  pde_res ← pde_call (pde self) x u_pred mu_pred;
  pde_loss ← loss_fn (PyNum 0) pde_res mask (mask_level self);
  Ok [u_loss; mu_loss; pde_loss].

(** [PINOData.get_tensors(self, idx, patch_size=None)] *)
Definition get_tensors (self : t) (idx : nat) (patch_size : option nat)
  : Rand (list (Tensor R) * Tensor R * list (Tensor R)) :=
  patient ← lift (get_patient (cohort self) idx);
  a_arrays ← lift (for_each (fun seq => values <$> get_array patient seq)
                            a_sequences);
  a ← lift (np_stack_last a_arrays);
  wave ← lift (get_array patient "wave");
  let x := np_scale (points wave) (/ 1000) in
  let u := expand_last (values wave) in
  mre ← lift (get_array patient "mre");
  let mu := expand_last (values mre) in
  mre_mask ← lift (get_array patient "mre_mask");
  let mask := expand_last (values mre_mask) in
  '(a, x, u, mu, mask) ←
    match patch_size with
    | Some P =>
        (* sample patch *)
        y ← lift (resolve "y"
               [("self", ObjOther); ("idx", ObjOther);
                ("patch_size", ObjOther); ("patient", ObjOther);
                ("a_sequences", ObjOther); ("a_arrays", ObjOther);
                ("a", ObjArray a); ("x", ObjArray x); ("u", ObjArray u);
                ("mu", ObjArray mu); ("mask", ObjArray mask)]);
        '(n_x, n_y, n_z) ← lift (shape3 y);
        patch_x ← randint (Z.of_nat n_x - Z.of_nat P + 1);
        patch_y ← randint (Z.of_nat n_y - Z.of_nat P + 1);
        a ← lift (crop2 patch_x patch_y P a);
        x ← lift (crop2 patch_x patch_y P x);
        u ← lift (crop2 patch_x patch_y P u);
        mu ← lift (crop2 patch_x patch_y P mu);
        mask ← lift (crop2 patch_x patch_y P mask);
        mret (a, x, u, mu, mask)
    | None => mret (a, x, u, mu, mask)
    end;
  (* convert arrays to tensors *)
  let a := torch_tensor a (device self) in
  let x := torch_tensor x (device self) in
  let u := torch_tensor u (device self) in
  let mu := torch_tensor mu (device self) in
  let mask := torch_tensor mask (device self) in
  target ← lift (torch_cat_last [u; mu; mask]);
  mret ([u; x], target, []).

(** The body of [train_next_batch] after the indices are drawn. *)
Definition collate (self : t) (batch_inds : list nat) (return_inds : bool)
  : Rand Batch :=
  items ← for_each_rand (fun idx => get_tensors self idx (patch_size self))
                        batch_inds;
  inputs ← lift (for_each torch_stack (py_zip (map (fun it => it.1.1) items)));
  targets ← lift (torch_stack (map (fun it => it.1.2) items));
  aux_vars ← lift (for_each torch_stack (py_zip (map (fun it => it.2) items)));
  mret (mkBatch inputs targets aux_vars
          (if return_inds then Some batch_inds else None)).

(** [PINOData.train_next_batch(self, batch_size=None, return_inds=False)].
    The sampler inside [self] is updated even when a later step raises. *)
Definition train_next_batch (self : t) (batch_size : option nat)
    (return_inds : bool) (g : RandomState) : res Batch * t * RandomState :=
  let batch_size :=
    match batch_size with
    | Some (S b) => Some (S b)
    | _ => PINOData.batch_size self
    end in
  match batch_size with
  | None => (Raise TypeError, self, g)
  | Some B =>
      let '(drawn, sampler, g') :=
        BatchSampler.get_next (batch_sampler self) B g in
      let self' :=
        mk (cohort self) (pde self) (mask_level self) sampler
           (PINOData.batch_size self) (patch_size self) (device self) in
      match drawn with
      | Raise e => (Raise e, self', g')
      | Ok batch_inds =>
          let '(r, g'') := collate self' batch_inds return_inds g' in
          (r, self', g'')
      end
  end.

(** [PINOData.test(self, return_inds=False)] *)
Definition test (self : t) (return_inds : bool) (g : RandomState)
  : res Batch * t * RandomState :=
  train_next_batch self (Some 1) return_inds g.

End PINOData.

Module PINOModel.
Section WithBackend.

(** [deepxde.grad.hessian], as in [pde.py]. *)
Variable hessian :
  Tensor R -> Tensor R -> option nat -> nat -> nat -> res (Tensor R).

Record t := mk {
  data : PINOData.t;
  net : Net
}.

(** [PINOModel.__init__(self, data, net, pde, patch_size=None,
    batch_size=None)] *)
Definition init (cohort : list Patient) (net : Net) (pde : PDEObject)
    (patch_size batch_size : option nat) (g : RandomState)
  : t * RandomState :=
  let '(d, g') := PINOData.init cohort pde patch_size batch_size None g in
  (mk d net, g').

(** [PINOModel.predict(self, a, x)].  The second component is [x] as the
    caller sees it afterwards. *)
Definition predict (self : t) (a x : Tensor R)
  : res (Tensor R * Tensor R * Tensor R * Tensor R * Tensor R) * Tensor R :=
  let x := set_requires_grad x in
  (outs ← forward (net self) (a, x) true;
   '(u_pred, mu_pred) ← unpack2 outs;
   lu_pred ← laplacian hessian u_pred x 0;
   '(f_trac, f_body) ←
     traction_and_body_forces (PINOData.pde (data self)) x u_pred mu_pred;
   Ok (u_pred, mu_pred, lu_pred, f_trac, f_body),
   x).

(** What the first block of [PINOModel.test] ("get model predictions as
    tensors") computes. *)
Record Predictions := mkPredictions {
  u_pred : Tensor R;
  mu_pred : Tensor R;
  lu_pred : Tensor R;
  f_trac : Tensor R;
  f_body : Tensor R;
  Mu_pred : Tensor R;
  inds : option (list nat)
}.

(** [PINOModel.test(self)] up to and including [mu_pred *= 100]; the
    rest of the method looks up the ground truth of patient [inds[0]]
    and packages predicted, difference and true arrays for display. *)
Definition test_predictions (self : t) (g : RandomState)
  : res Predictions * t * RandomState :=
  let '(r, d, g') := PINOData.test (data self) true g in
  let self' := mk d (net self) in
  (batch ← r;
   '(a, x) ← match b_inputs batch with
             | [a; x] => Ok (a, x)
             | _ => Raise TypeError
             end;
   '(u_pred, mu_pred, lu_pred, f_trac, f_body) ← (predict self' a x).1;
   Mu_pred ← tdiv (tscale (-1000 * (2 * PI * 80) ^ 2) u_pred) lu_pred;
   let mu_pred := tmap (fun e => e * 100)%R mu_pred in
   Ok (mkPredictions u_pred mu_pred lu_pred f_trac f_body Mu_pred
         (b_inds batch)),
   self', g').

End WithBackend.
End PINOModel.

(** ** Well-formed data *)

Definition wf_array (a : ndarray) : Prop :=
  length (a_data a) = numel (a_shape a).

(** The arrays of one patient are co-registered: they live on one spatial
    grid of shape [sh]. *)
Definition coregistered (patient : Patient) (sh : list nat) : Prop :=
  forall key xa, arrays patient !! key = Some xa ->
    a_shape (values xa) = sh /\ wf_array (values xa).

(** ** A small cohort for examples *)

Definition ex_xarray (v : R) : XArray :=
  mkXArray (mkArray [1; 1; 1] [v]) (mkArray [1; 1; 1; 3] [0; 0; 0]%R).

Definition ex_patient (v : R) : Patient :=
  mkPatient (list_to_map
    [("t1_pre_in", ex_xarray 1); ("t1_pre_out", ex_xarray 1);
     ("t1_pre_water", ex_xarray 1); ("t1_pre_fat", ex_xarray 1);
     ("wave", ex_xarray v); ("mre", ex_xarray 3); ("mre_mask", ex_xarray 1)]).

Definition ex_cohort : list Patient := [ex_patient 1; ex_patient 2].

Definition ex_pde : PDEObject :=
  mkPDEObject (fun x u mu => Ok u) (fun x u mu => Ok (u, mu)).

Definition ex_rng : RandomState := mkRandomState (fun _ => 0) 0.

Definition ex_data : PINOData.t := (PINOData.init ex_cohort ex_pde None None None ex_rng).1.

(** ** The states of the pipeline *)

(** The [PINOData] objects that the program can reach: the constructor
    builds one, and [train_next_batch] and [test] update it in place
    ([losses] and [get_tensors] only read it). *)
Inductive reachable : PINOData.t -> Prop :=
| reach_init cohort pde patch_size batch_size device g :
    reachable (PINOData.init cohort pde patch_size batch_size device g).1
| reach_train_next_batch s batch_size return_inds g :
    reachable s ->
    reachable (PINOData.train_next_batch s batch_size return_inds g).1.2
| reach_test s return_inds g :
    reachable s ->
    reachable (PINOData.test s return_inds g).1.2.

(** ** Driving the sampler *)

(** [k] calls [train_next_batch(batch_size, return_inds=True)] one after
    the other, each on the object as the call before left it; the result
    lists the index lists that the calls returned. *)
Fixpoint draw_batches (k : nat) (self : PINOData.t) (batch_size : option nat)
    (g : RandomState) : res (list (list nat)) * PINOData.t * RandomState :=
  match k with
  | 0 => (Ok [], self, g)
  | S k' =>
      let '(r, self', g') := PINOData.train_next_batch self batch_size true g in
      match r with
      | Raise e => (Raise e, self', g')
      | Ok batch =>
          let '(rs, self'', g'') := draw_batches k' self' batch_size g' in
          (cons (default [] (b_inds batch)) <$> rs, self'', g'')
      end
  end.

(** A sampler over [n] samples in a consistent state: its ordering is a
    permutation of the indices below [n] and the cursor lies within it. *)
Definition sampler_ok (n : nat) (s : BatchSampler.t) : Prop :=
  BatchSampler.num_samples s = n
  /\ BatchSampler.indices s ≡ₚ seq 0 n
  /\ BatchSampler.index_in_epoch s <= n.

(** ** Small inputs for examples *)

(** A differentiation primitive that answers with a column of ones. *)
Definition ex_hessian (u x : Tensor R) (c : option nat) (i j : nat)
  : res (Tensor R) :=
  Ok (mkTensor [nth 0 (shape u) 0; 1] (replicate (nth 0 (shape u) 0) 1%R) true).

(** The same over dual numbers; the column depends on the parameter. *)
Definition ex_hessian_dual (u x : Tensor Dual) (c : option nat) (i j : nat)
  : res (Tensor Dual) :=
  Ok (mkTensor [nth 0 (shape u) 0; 1]
        (replicate (nth 0 (shape u) 0) (mkDual 1 1)) true).

(** A differentiation primitive that answers in the shape of [u]. *)
Definition ex_hessian_like (u x : Tensor R) (c : option nat) (i j : nat)
  : res (Tensor R) :=
  Ok (mkTensor (shape u) (map (fun _ => 2%R) (data u)) true).

(** One sample point: omega = 1 at the origin, u = (1, 2, 3), mu = 5. *)
Definition ex_x : Tensor R := mkTensor [1; 4] [1; 0; 0; 0]%R true.
Definition ex_outputs : Tensor R := mkTensor [1; 4] [1; 2; 3; 5]%R true.
Definition ex_u : Tensor R := mkTensor [1; 3] [1; 2; 3]%R true.

Definition ex_x_dual : Tensor Dual :=
  mkTensor [1; 4] [mkDual 1 0; mkDual 0 0; mkDual 0 0; mkDual 0 0] true.
Definition ex_outputs_dual : Tensor Dual :=
  mkTensor [1; 4] [mkDual 1 1; mkDual 2 1; mkDual 3 1; mkDual 5 0] true.

Definition ex_wave_equation (flag : bool) : WaveEquation :=
  WaveEquation_init flag None None.

(** A loss on the residual alone: the sum of its squared entries. *)
Definition ex_pde_loss (r : Tensor Dual) : Dual :=
  foldr (fun e acc => s_add (s_mul e e) acc) (s_const 0) (data r).

(** A masked loss that only reports the mask strength and the first
    predicted value. *)
Definition ex_loss_fn (target : @pyval R) (pred mask : Tensor R) (s : R)
  : res R :=
  Ok (s * nth 0 (data pred) 0)%R.

Definition ex_targets : Tensor R := mkTensor [1; 3] [1; 2; 3]%R false.
Definition ex_a : Tensor R := mkTensor [1; 1] [7]%R false.
Definition ex_coords : Tensor R := mkTensor [1; 2] [0; 0]%R false.

(** A network that answers with its first input for both outputs. *)
Definition ex_net : Net := mkNet (fun inputs dbg => Ok [inputs.1; inputs.1]).

Definition ex_model : PINOModel.t := PINOModel.mk ex_data ex_net.

(** The Laplacian that [ex_hessian] yields for the displacement columns of
    [ex_outputs]: three second partials, each 1, added to the initial 0. *)
Definition ex_lap : Tensor R :=
  mkTensor [1; 3] [0 + 1 + 1 + 1; 0 + 1 + 1 + 1; 0 + 1 + 1 + 1]%R true.

(** The Laplacian that [ex_hessian_dual] yields for [ex_outputs_dual]. *)
Definition ex_lap_dual : Tensor Dual :=
  mkTensor [1; 3]
    (replicate 3
       (s_add (s_add (s_add (s_const 0) (mkDual 1 1)) (mkDual 1 1)) (mkDual 1 1)))
    true.

(** ** The functional residual forms of [pde.py] *)

(** The names bound at module level in [pde.py]. *)
Definition pde_globals : list string :=
  ["np"; "torch"; "deepxde"; "jacobian"; "hessian"; "laplacian";
   "WaveEquation"; "lvwe"; "homogeneous_lvwe";
   "incompressible_homogeneous_lvwe"; "pressure_homogeneous_lvwe"].

(** The use of a name that is not a local of the running function: it is
    looked up among the module globals ([if_bound] is what the use yields
    when it is found there) and raises [NameError] otherwise. *)
Definition use_global {A} (name : string) (if_bound : res A) : res A :=
  if bool_decide (name ∈ pde_globals) then if_bound
  else Raise (NameError name).

Section ResidualForms.
Context {T : Type} `{Scalar T}.

Variable hessian :
  Tensor T -> Tensor T -> option nat -> nat -> nat -> res (Tensor T).

(** [deepxde.grad.jacobian(u, x)] and the tensor attribute [.T] of the
    backend. *)
Variable jacobian : Tensor T -> Tensor T -> res (Tensor T).
Variable transpose : Tensor T -> res (Tensor T).

(** What [trace], [I], [divergence] and [gradient] would compute if the
    module defined them. *)
Variable trace_impl : Tensor T -> res (@pyval T).
Variable identity_impl : res (@pyval T).
Variable divergence_impl : @pyval T -> Tensor T -> res (@pyval T).
Variable gradient_impl : @pyval T -> Tensor T -> res (@pyval T).

(** [a * b], [a + b] and [a ** n] on Python numbers and tensors. *)
Definition py_mul (a b : @pyval T) : res (@pyval T) :=
  match a, b with
  | PyNum c, PyNum d => Ok (PyNum (c * d))
  | PyNum c, PyTensor t => Ok (PyTensor (tscale c t))
  | PyTensor t, PyNum c => Ok (PyTensor (tmap (fun e => s_mul e (s_const c)) t))
  | PyTensor s, PyTensor t => PyTensor <$> tmul s t
  end.

Definition py_add (a b : @pyval T) : res (@pyval T) :=
  match a, b with
  | PyNum c, PyNum d => Ok (PyNum (c + d))
  | PyNum c, PyTensor t => Ok (PyTensor (tshift c t))
  | PyTensor t, PyNum c => Ok (PyTensor (tmap (fun e => s_add e (s_const c)) t))
  | PyTensor s, PyTensor t => PyTensor <$> tadd s t
  end.

Definition py_pow (a : @pyval T) (n : nat) : @pyval T :=
  match a with
  | PyNum c => PyNum (c ^ n)
  | PyTensor t => PyTensor (tpow t n)
  end.

(** [rho * omega**2 * u] *)
Definition body_force (rho omega : @pyval T) (u : Tensor T) : res (@pyval T) :=
  c ← py_mul rho (py_pow omega 2);
  py_mul c (PyTensor u).

(** [lvwe(x, u, mu, lam, rho, omega)] *)
Definition lvwe (x u : Tensor T) (mu lam rho omega : @pyval T)
  : res (@pyval T) :=
  jac_u ← jacobian u x;
  jac_u_T ← transpose jac_u;
  sym ← tadd jac_u jac_u_T;
  let strain := tscale (1 / 2) sym in
  two_mu ← py_mul (PyNum 2) mu;
  shear ← py_mul two_mu (PyTensor strain);
  tr ← use_global "trace" (trace_impl strain);
  lam_tr ← py_mul lam tr;
  eye ← use_global "I" identity_impl;
  bulk ← py_mul lam_tr eye;
  stress ← py_add shear bulk;
  lhs ← use_global "divergence" (divergence_impl stress x);
  f ← body_force rho omega u;
  py_add lhs f.

(** [homogeneous_lvwe(x, u, mu, lam, rho, omega)] *)
Definition homogeneous_lvwe (x u : Tensor T) (mu lam rho omega : @pyval T)
  : res (@pyval T) :=
  laplace_u ← laplacian hessian u x 0;
  div_u ← use_global "divergence" (divergence_impl (PyTensor u) x);
  grad_div_u ← use_global "gradient" (gradient_impl div_u x);
  mu_lap ← py_mul mu (PyTensor laplace_u);
  lam_mu ← py_add lam mu;
  vol ← py_mul lam_mu grad_div_u;
  lhs ← py_add mu_lap vol;
  f ← body_force rho omega u;
  py_add lhs f.

(** [incompressible_homogeneous_lvwe(x, u, mu, rho, omega)] *)
Definition incompressible_homogeneous_lvwe (x u : Tensor T)
    (mu rho omega : @pyval T) : res (@pyval T) :=
  laplace_u ← laplacian hessian u x 0;
  lhs ← py_mul mu (PyTensor laplace_u);
  f ← body_force rho omega u;
  py_add lhs f.

(** [pressure_homogeneous_lvwe(x, u, mu, p, rho, omega)] *)
Definition pressure_homogeneous_lvwe (x u : Tensor T)
    (mu p rho omega : @pyval T) : res (@pyval T) :=
  laplace_u ← laplacian hessian u x 0;
  grad_p ← use_global "gradient" (gradient_impl p x);
  mu_lap ← py_mul mu (PyTensor laplace_u);
  lhs ← py_add mu_lap grad_p;
  f ← body_force rho omega u;
  py_add lhs f.
End ResidualForms.

(** ** Cohorts that load *)




(** ** More small inputs for examples *)

(** A differentiation primitive that fails, as on an input without gradient
    tracking. *)
Definition ex_hessian_failing (u x : Tensor R) (c : option nat) (i j : nat)
  : res (Tensor R) :=
  Raise RuntimeError.

(** Outputs with the modulus column only. *)
Definition ex_outputs_mu_only : Tensor R := mkTensor [1; 1] [5]%R true.

(** A displacement and its Laplacian that balance at mu = 5, omega = 1:
    5 * lap = - 1000 * (2 * PI)^2 * u with u = 1. *)
Definition ex_hessian_balanced (u x : Tensor R) (c : option nat) (i j : nat)
  : res (Tensor R) :=
  Ok (mkTensor [1; 1] [if j =? 1 then (- (1000 * (2 * PI * 1) ^ 2 * 1) / 5)%R
                       else 0%R] true).
Definition ex_outputs_balanced : Tensor R :=
  mkTensor [1; 4] [1; 1; 1; 5]%R true.

(** A patient without the fat image, one whose out-of-phase image lives on
    another grid, and cohorts made of them. *)
Definition ex_patient_no_fat : Patient :=
  mkPatient (list_to_map
    [("t1_pre_in", ex_xarray 1); ("t1_pre_out", ex_xarray 1);
     ("t1_pre_water", ex_xarray 1);
     ("wave", ex_xarray 1); ("mre", ex_xarray 3); ("mre_mask", ex_xarray 1)]).

Definition ex_patient_ragged : Patient :=
  mkPatient (list_to_map
    [("t1_pre_in", ex_xarray 1);
     ("t1_pre_out", mkXArray (mkArray [2; 1; 1] [1; 1]%R)
                      (mkArray [2; 1; 1; 3] [0; 0; 0; 0; 0; 0]%R));
     ("t1_pre_water", ex_xarray 1); ("t1_pre_fat", ex_xarray 1);
     ("wave", ex_xarray 1); ("mre", ex_xarray 3); ("mre_mask", ex_xarray 1)]).

Definition ex_data_no_fat : PINOData.t :=
  (PINOData.init [ex_patient_no_fat] ex_pde None None None ex_rng).1.

Definition ex_data_ragged : PINOData.t :=
  (PINOData.init [ex_patient_ragged] ex_pde None None None ex_rng).1.

(** The example cohort with a patch size configured. *)
Definition ex_data_patch : PINOData.t :=
  (PINOData.init ex_cohort ex_pde (Some 1) None None ex_rng).1.

(** Targets with two channels only. *)
Definition ex_targets_two : Tensor R := mkTensor [1; 2] [1; 2]%R false.

(** Stand-ins for the backend's [jacobian] and [.T] and for what the
    undefined helpers of [pde.py] would compute. *)
Definition ex_jacobian (u x : Tensor R) : res (Tensor R) := Ok u.
Definition ex_transpose (t : Tensor R) : res (Tensor R) := Ok t.
Definition ex_trace (t : Tensor R) : res (@pyval R) := Ok (PyNum 0).
Definition ex_identity : res (@pyval R) := Ok (PyNum 1).
Definition ex_divergence (v : @pyval R) (x : Tensor R) : res (@pyval R) :=
  Ok v.
Definition ex_gradient (v : @pyval R) (x : Tensor R) : res (@pyval R) :=
  Ok v.

(** * Theorems *)

(** ** Row-major buffers *)

Section Buffers.
Context {A : Type}.
Implicit Types (l : list A) (rows : list (list A)).

Lemma length_blocks c k l : length (blocks c k l) = c.
Proof. revert l; induction c as [|c IH]; intros l; simpl; auto. Qed.

Lemma lookup_blocks c k l n :
  n < c -> blocks c k l !! n = Some (take k (drop (n * k) l)).
Proof.
  revert l n; induction c as [|c IH]; intros l n Hn; [lia|].
  destruct n as [|n]; simpl; [reflexivity|].
  rewrite IH by lia. by rewrite drop_drop.
Qed.

Lemma Forall_length_blocks c k l :
  c * k <= length l -> Forall (fun r => length r = k) (blocks c k l).
Proof.
  revert l; induction c as [|c IH]; intros l Hl; simpl; constructor.
  - rewrite length_take. lia.
  - apply IH. rewrite length_drop. lia.
Qed.

Lemma concat_blocks c k l : length l = c * k -> concat (blocks c k l) = l.
Proof.
  revert l; induction c as [|c IH]; intros l Hl; simpl.
  - destruct l; simpl in *; [reflexivity|lia].
  - rewrite IH; [apply take_drop|]. rewrite length_drop. lia.
Qed.

Lemma blocks_concat rows k :
  Forall (fun r => length r = k) rows ->
  blocks (length rows) k (concat rows) = rows.
Proof.
  induction 1 as [|r rows Hr _ IH]; simpl; [reflexivity|].
  rewrite take_app_length' by done. rewrite drop_app_length' by done.
  by rewrite IH.
Qed.

Lemma length_concat_uniform rows k :
  Forall (fun r => length r = k) rows ->
  length (concat rows) = length rows * k.
Proof.
  induction 1 as [|r rows Hr _ IH]; simpl; [reflexivity|].
  rewrite length_app. lia.
Qed.

Lemma lookup_concat_uniform rows k n m :
  Forall (fun r => length r = k) rows -> m < k ->
  concat rows !! (n * k + m) = rows !! n ≫= (fun r => r !! m).
Proof.
  intros Hrows Hm. revert n.
  induction Hrows as [|r rows Hr _ IH]; intros n; simpl.
  - reflexivity.
  - destruct n as [|n]; simpl.
    + rewrite lookup_app_l by lia. reflexivity.
    + rewrite lookup_app_r by lia.
      replace (k + n * k + m - length r) with (n * k + m) by lia. apply IH.
Qed.
End Buffers.

(** ** Loops that may raise *)

Lemma res_bind_Ok {A B} (m : res A) (f : A -> res B) (b : B) :
  m ≫= f = Ok b -> exists a, m = Ok a /\ f a = Ok b.
Proof. destruct m as [a|e]; [by exists a|discriminate]. Qed.

Lemma for_each_Forall2 {A B} (f : A -> res B) (P : A -> B -> Prop) xs :
  (forall x, x ∈ xs -> exists y, f x = Ok y /\ P x y) ->
  exists ys, for_each f xs = Ok ys /\ Forall2 P xs ys.
Proof.
  induction xs as [|x xs IH]; intros Hf; simpl.
  - exists []. split; [reflexivity|constructor].
  - destruct (Hf x) as (y & Hy & HP); [left|].
    destruct IH as (ys & Hys & HF); [intros z Hz; apply Hf; by right|].
    exists (y :: ys). rewrite Hy; simpl. rewrite Hys; simpl.
    split; [reflexivity|by constructor].
Qed.

(** ** Broadcasting and concatenation on two-dimensional tensors *)

Section Broadcast.
Context {T : Type}.
Implicit Types (a b t : Tensor T) (d : list T).

Lemma expand_data_same sh d :
  length d = numel sh -> expand_data sh sh d = d.
Proof.
  revert d; induction sh as [|s sh IH]; intros d Hd; simpl; [reflexivity|].
  rewrite Nat.eqb_refl. simpl in Hd.
  rewrite <- (concat_blocks s (numel sh) d) at 2 by done.
  f_equal. rewrite <- (map_id (blocks s (numel sh) d)) at 2.
  apply map_ext_Forall.
  eapply Forall_impl; [apply Forall_length_blocks; lia|].
  intros r Hr; by apply IH.
Qed.

Lemma concat_replicate_singleton M (v : T) :
  concat (replicate M [v]) = replicate M v.
Proof. induction M as [|M IH]; simpl; [reflexivity|by rewrite IH]. Qed.

Lemma expand_data_column N M d :
  length d = N ->
  expand_data [N; 1] [N; M] d = concat (map (replicate M) d).
Proof.
  intros <-. cbn [expand_data numel foldr]. rewrite Nat.eqb_refl. f_equal.
  induction d as [|v d IH]; [reflexivity|].
  cbn [length blocks map take drop]. f_equal.
  - clear IH. simpl. destruct M as [|[|M]]; simpl; try reflexivity.
    by rewrite concat_replicate_singleton.
  - apply IH.
Qed.

Lemma broadcast_dims_same sh : broadcast_dims sh sh = Some sh.
Proof.
  induction sh as [|s sh IH]; simpl; [reflexivity|].
  by rewrite IH, Nat.eqb_refl.
Qed.

Lemma pad_shape_same sh : pad_shape (length sh) sh = sh.
Proof. unfold pad_shape. by rewrite Nat.sub_diag. Qed.

Lemma tbin_same op a b :
  shape a = shape b -> wf_tensor a -> wf_tensor b ->
  tbin op a b
  = Ok (mkTensor (shape a) (zip_with op (data a) (data b))
          (requires_grad a || requires_grad b)).
Proof.
  intros Hs Ha Hb. unfold tbin. rewrite <- Hs, Nat.max_id, pad_shape_same.
  rewrite broadcast_dims_same, !expand_data_same; try done.
  unfold wf_tensor in Hb. by rewrite Hs.
Qed.

Lemma tbin_column op a b N M :
  shape a = [N; 1] -> shape b = [N; M] -> wf_tensor a -> wf_tensor b ->
  tbin op a b
  = Ok (mkTensor [N; M]
          (zip_with op (concat (map (replicate M) (data a))) (data b))
          (requires_grad a || requires_grad b)).
Proof.
  intros Ha Hb Wa Wb. unfold tbin, wf_tensor in *. rewrite Ha, Hb in *.
  cbn [length Nat.max]. unfold pad_shape. cbn [length Nat.sub replicate app].
  assert (broadcast_dims [N; 1] [N; M] = Some [N; M]) as ->.
  { simpl. rewrite Nat.eqb_refl. destruct M as [|[|M]]; reflexivity. }
  rewrite expand_data_same by done.
  rewrite expand_data_column; [reflexivity|]. simpl in Wa; lia.
Qed.

Lemma lookup_replicate_rows M d n m :
  m < M -> concat (map (replicate M) d) !! (n * M + m) = d !! n.
Proof.
  intros Hm. rewrite (lookup_concat_uniform _ M) by
    (try done; apply Forall_map, Forall_true; intros; apply length_replicate).
  rewrite list_lookup_fmap. destruct (d !! n) as [v|]; simpl; [|reflexivity].
  by apply lookup_replicate_2.
Qed.
End Broadcast.

Section Columns.
Context {T : Type}.
Implicit Types (t v : Tensor T) (d : list T).

Lemma lookup_slice_rows N C b len d n m :
  length d = N * C -> b + len <= C -> n < N -> m < len ->
  concat (map (fun row => take len (drop b row)) (blocks N C d))
    !! (n * len + m)
  = d !! (n * C + b + m).
Proof.
  intros Hd Hb Hn Hm.
  rewrite (lookup_concat_uniform _ len); [|apply Forall_map|done].
  - rewrite list_lookup_fmap, lookup_blocks by done. simpl.
    rewrite lookup_take_lt, lookup_drop, lookup_take_lt, lookup_drop by lia.
    f_equal; lia.
  - eapply Forall_impl; [apply (Forall_length_blocks N C d); lia|].
    intros r Hr; simpl in *. rewrite length_take, length_drop. lia.
Qed.

Lemma length_slice_rows N C b len d :
  length d = N * C -> b + len <= C ->
  length (concat (map (fun row => take len (drop b row)) (blocks N C d)))
  = N * len.
Proof.
  intros Hd Hb. rewrite (length_concat_uniform _ len).
  - by rewrite length_map, length_blocks.
  - apply Forall_map.
    eapply Forall_impl; [apply (Forall_length_blocks N C d); lia|].
    intros r Hr; simpl in *. rewrite length_take, length_drop. lia.
Qed.

Lemma slice_axis1_2d start stop t N C :
  shape t = [N; C] ->
  slice_axis1 start stop t
  = Ok (mkTensor [N; (py_slice start stop C).2]
          (concat (map (fun row => take (py_slice start stop C).2
                                     (drop (py_slice start stop C).1 row))
                       (blocks N C (data t))))
          (requires_grad t)).
Proof.
  intros Hs. unfold slice_axis1. rewrite Hs.
  destruct (py_slice start stop C) as [b len]; simpl.
  by rewrite !Nat.mul_1_r.
Qed.

Lemma sum_list_ones {A} (f : A -> nat) (l : list A) :
  Forall (fun a => f a = 1) l -> sum_list (map f l) = length l.
Proof. induction 1 as [|a l Ha _ IH]; simpl; [reflexivity|lia]. Qed.

Lemma torch_cat_head (ts : list (Tensor T)) (d : nat) t0 :
  head ts = Some t0 ->
  torch_cat ts d
  = if forallb (fun t => cat_shape_ok d (shape t0) (shape t)) ts then
      Ok (mkTensor
            (take d (shape t0)
               ++ [sum_list (map (fun t => nth d (shape t) 0) ts)]
               ++ drop (S d) (shape t0))
            (concat (map (fun o => concat (map (fun t =>
                 take (numel (drop d (shape t)))
                   (drop (o * numel (drop d (shape t))) (data t))) ts))
               (seq 0 (numel (take d (shape t0))))))
            (existsb requires_grad ts))
    else Raise RuntimeError.
Proof. destruct ts; intros [= ->]; reflexivity. Qed.

Lemma numel_app (a b : list nat) : numel (a ++ b) = numel a * numel b.
Proof.
  unfold numel. induction a as [|n a IH]; simpl; [lia|]. rewrite IH. lia.
Qed.

(** Concatenating tensors of shape [sh ++ [1]] along the last axis. *)
Lemma torch_cat_channels (cols : list (Tensor T)) (sh : list nat) :
  cols <> [] ->
  Forall (fun t => shape t = sh ++ [1] /\ wf_tensor t) cols ->
  exists v, torch_cat cols (length sh) = Ok v
    /\ shape v = sh ++ [length cols] /\ wf_tensor v
    /\ forall n m, n < numel sh -> m < length cols ->
         data v !! (n * length cols + m)
         = cols !! m ≫= (fun t => data t !! n).
Proof.
  intros Hne Hcols.
  assert (exists t0, head cols = Some t0 /\ shape t0 = sh ++ [1])
    as (t0 & Hhd & Ht0).
  { destruct cols as [|t0 cols']; [done|]. exists t0.
    by inversion Hcols as [|?? [? ?]]. }
  assert (take (length sh) (sh ++ [1]) = sh) as Htake
    by (by rewrite take_app_length).
  assert (drop (length sh) (sh ++ [1]) = [1]) as Hdrop
    by (by rewrite drop_app_length).
  assert (drop (S (length sh)) (sh ++ [1]) = []) as HdropS
    by (apply drop_ge; rewrite length_app; simpl; lia).
  assert (nth (length sh) (sh ++ [1]) 0 = 1) as Hnth
    by (by rewrite nth_middle).
  rewrite (torch_cat_head _ _ _ Hhd).
  assert (forallb (fun t => cat_shape_ok (length sh) (shape t0) (shape t)) cols
          = true) as ->.
  { apply forallb_forall. intros t Ht. apply list_elem_of_In in Ht.
    rewrite Forall_forall in Hcols. destruct (Hcols t Ht) as [Hst _].
    unfold cat_shape_ok. rewrite Ht0, Hst. apply bool_decide_eq_true.
    rewrite length_app. simpl. split; [lia|done]. }
  eexists. split; [reflexivity|].
  assert (forall o t, t ∈ cols -> o < numel sh ->
            take (numel (drop (length sh) (shape t)))
                 (drop (o * numel (drop (length sh) (shape t))) (data t))
            = take 1 (drop o (data t))
            /\ length (take 1 (drop o (data t))) = 1) as Hpiece.
  { intros o t Ht Ho. rewrite Forall_forall in Hcols.
    destruct (Hcols t Ht) as [Hst Hwf]. unfold wf_tensor in Hwf.
    rewrite Hst, numel_app in Hwf. rewrite Hst, Hdrop. simpl in *.
    rewrite Nat.mul_1_r. split; [done|].
    rewrite length_take, length_drop. lia. }
  assert (forall o, o < numel sh ->
            concat (map (fun t => take (numel (drop (length sh) (shape t)))
                   (drop (o * numel (drop (length sh) (shape t))) (data t)))
                   cols)
            = concat (map (fun t => take 1 (drop o (data t))) cols)) as HF.
  { intros o Ho. f_equal. apply map_ext_Forall, Forall_forall.
    intros t Ht. by apply Hpiece. }
  assert (forall o, o < numel sh ->
            length (concat (map (fun t => take 1 (drop o (data t))) cols))
            = length cols) as HL.
  { intros o Ho. rewrite (length_concat_uniform _ 1).
    - rewrite length_map. lia.
    - apply Forall_map, Forall_forall. intros t Ht. by apply Hpiece. }
  assert (Forall (fun r : list T => length r = length cols)
            (map (fun o => concat (map (fun t =>
               take (numel (drop (length sh) (shape t)))
                 (drop (o * numel (drop (length sh) (shape t))) (data t)))
               cols))
               (seq 0 (numel (take (length sh) (shape t0)))))) as Hrows.
  { apply Forall_map, Forall_forall. intros o Ho.
    apply elem_of_seq in Ho. rewrite Ht0, Htake in Ho. simpl in *.
    rewrite HF by lia. apply HL; lia. }
  assert (sum_list (map (fun t => nth (length sh) (shape t) 0) cols)
          = length cols) as Hsum.
  { apply sum_list_ones. eapply Forall_impl; [exact Hcols|].
    intros t [-> _]. exact Hnth. }
  split; [|split].
  - cbn [shape]. by rewrite Ht0, Htake, HdropS, Hsum.
  - unfold wf_tensor. cbn [data shape].
    rewrite (length_concat_uniform _ (length cols)) by exact Hrows.
    rewrite length_map, length_seq, Ht0, Htake, HdropS, Hsum.
    rewrite numel_app. simpl. lia.
  - intros n m Hn Hm. cbn [data].
    rewrite (lookup_concat_uniform _ (length cols)) by done.
    rewrite list_lookup_fmap, lookup_seq_lt by (by rewrite Ht0, Htake).
    simpl. rewrite HF by done.
    replace m with (m * 1 + 0) at 1 by lia.
    rewrite (lookup_concat_uniform _ 1);
      [|apply Forall_map, Forall_forall; intros t Ht; by apply Hpiece|lia].
    rewrite list_lookup_fmap. destruct (cols !! m) as [t|]; simpl; [|done].
    rewrite lookup_take_lt, lookup_drop by lia. f_equal; lia.
Qed.

Lemma torch_cat_columns (cols : list (Tensor T)) N :
  cols <> [] ->
  Forall (fun t => shape t = [N; 1] /\ wf_tensor t) cols ->
  exists v, torch_cat cols 1 = Ok v
    /\ shape v = [N; length cols] /\ wf_tensor v
    /\ forall n m, n < N -> m < length cols ->
         data v !! (n * length cols + m)
         = cols !! m ≫= (fun t => data t !! n).
Proof.
  intros Hne Hcols.
  destruct (torch_cat_channels cols [N] Hne Hcols) as (v & Hv & Hs & Hw & He).
  exists v. repeat split; try done.
  intros n m Hn Hm. apply He; simpl; lia.
Qed.
End Columns.

(** ** The Laplacian *)

Lemma nth_zip_with_R (op : R -> R -> R) (a b : list R) n :
  n < length a -> n < length b ->
  nth n (zip_with op a b) 0%R = op (nth n a 0%R) (nth n b 0%R).
Proof.
  intros Ha Hb. rewrite !nth_lookup, lookup_zip_with.
  destruct (lookup_lt_is_Some_2 a n Ha) as [va ->].
  destruct (lookup_lt_is_Some_2 b n Hb) as [vb ->]. reflexivity.
Qed.

Section LaplacianFacts.
Variable hessian :
  Tensor R -> Tensor R -> option nat -> nat -> nat -> res (Tensor R).
Variables (u x : Tensor R) (N : nat) (c : option nat).
Variable Hc : nat -> Tensor R.

Lemma laplacian_sum_tensor js acc :
  shape acc = [N; 1] -> wf_tensor acc -> hessian_gives hessian u x N c Hc js ->
  exists t, laplacian_sum hessian u x c js (PyTensor acc) = Ok (PyTensor t)
    /\ shape t = [N; 1] /\ wf_tensor t
    /\ forall n, n < N ->
         nth n (data t) 0%R
         = (nth n (data acc) 0
            + Rsum (map (fun j => nth n (data (Hc j)) 0) js))%R.
Proof.
  revert acc. induction js as [|j js IH]; intros acc Hs Hw Hh.
  - exists acc. repeat split; try done. intros n _. simpl. lra.
  - destruct (Hh j) as (Hj & Hsj & Hwj); [left|].
    cbn [laplacian_sum]. rewrite Hj. cbn [mbind res_bind iadd].
    unfold tadd. rewrite tbin_same by (try done; congruence).
    cbn [fmap res_fmap].
    edestruct (IH (mkTensor (shape acc)
                    (zip_with s_add (data acc) (data (Hc j)))
                    (requires_grad acc || requires_grad (Hc j))))
      as (t & Ht & Hst & Hwt & Hv).
    + exact Hs.
    + unfold wf_tensor in *. cbn [data shape].
      rewrite length_zip_with, Hw, Hwj, Hs, Hsj. lia.
    + intros j' Hj'. apply Hh. by right.
    + exists t. repeat split; try done.
      intros n Hn. rewrite Hv by done. cbn [data map Rsum foldr].
      unfold wf_tensor in *. rewrite Hs in Hw. rewrite Hsj in Hwj.
      simpl in Hw, Hwj.
      rewrite nth_zip_with_R by lia. simpl. fold (Rsum (map (fun j0 => nth n (data (Hc j0)) 0%R) js)). lra.
Qed.

Lemma laplacian_sum_from_zero js :
  js <> [] -> hessian_gives hessian u x N c Hc js ->
  exists t, laplacian_sum hessian u x c js (PyNum 0) = Ok (PyTensor t)
    /\ shape t = [N; 1] /\ wf_tensor t
    /\ forall n, n < N ->
         nth n (data t) 0%R
         = Rsum (map (fun j => nth n (data (Hc j)) 0%R) js).
Proof.
  intros Hne Hh. destruct js as [|j js]; [done|].
  destruct (Hh j) as (Hj & Hsj & Hwj); [left|].
  cbn [laplacian_sum]. rewrite Hj. cbn [mbind res_bind iadd].
  destruct (laplacian_sum_tensor js (tshift 0 (Hc j)))
    as (t & Ht & Hst & Hwt & Hv).
  - exact Hsj.
  - unfold wf_tensor, tshift, tmap in *. cbn [data shape].
    by rewrite length_map.
  - intros j' Hj'. apply Hh. by right.
  - exists t. repeat split; try done.
    intros n Hn. rewrite Hv by done. cbn [map Rsum foldr].
    fold (Rsum (map (fun j0 => nth n (data (Hc j0)) 0%R) js)).
    unfold tshift, tmap. cbn [data].
    unfold wf_tensor in Hwj. rewrite Hsj in Hwj. simpl in Hwj.
    rewrite !nth_lookup, list_lookup_fmap.
    destruct (lookup_lt_is_Some_2 (data (Hc j)) n) as [v ->]; [lia|].
    simpl. lra.
Qed.
End LaplacianFacts.

(** C8.  For [u] of shape N×M and [x] of shape N×K with at least one output
    component and at least one differentiated input dimension, and an
    automatic differentiation primitive that returns, for component [m] and
    input dimension [j], the N×1 column [H2 m j] of the pure second partial
    derivative of [u_m] along [x_j], [laplacian u x dim] returns an N×M
    tensor whose entry [n, m] is the sum over [j] in [dim, K) of entry [n]
    of [H2 m j].  The primitive is consulted with component [None] when
    M = 1 and with [Some m] otherwise. *)
Theorem laplacian_second_partials
    (hessian : Tensor R -> Tensor R -> option nat -> nat -> nat -> res (Tensor R))
    (u x : Tensor R) (N M K dim : nat) (H2 : nat -> nat -> Tensor R) :
  shape u = [N; M] -> shape x = [N; K] -> 0 < M -> dim < K ->
  (forall m, m < M ->
     hessian_gives hessian u x N (if 1 <? M then Some m else None) (H2 m)
       (seq dim (K - dim))) ->
  exists v, laplacian hessian u x dim = Ok v
    /\ shape v = [N; M] /\ wf_tensor v
    /\ forall n m, n < N -> m < M ->
         at2 0%R v n m
         = Rsum (map (fun j => at2 0%R (H2 m j) n 0) (seq dim (K - dim))).
Proof.
  intros Hu Hx HM Hdim Hhess.
  set (Q := fun (i : nat) (t : Tensor R) =>
              shape t = [N; 1] /\ wf_tensor t
              /\ forall n, n < N ->
                   nth n (data t) 0%R
                   = Rsum (map (fun j => nth n (data (H2 i j)) 0%R)
                             (seq dim (K - dim)))).
  unfold laplacian, shape_at. rewrite Hu. cbn [lookup list_lookup mbind res_bind].
  edestruct (for_each_Forall2
    (fun i => K0 ← (match shape x !! 1 with
                    | Some d => Ok d | None => Raise IndexError end);
              laplacian_sum hessian u x (if 1 <? M then Some i else None)
                (seq dim (K0 - dim)) (PyNum 0))
    (fun i v => exists t, v = PyTensor t /\ Q i t) (seq 0 M))
    as (comps & Hcomps & HF).
  { intros i Hi. apply elem_of_seq in Hi. rewrite Hx. cbn [lookup list_lookup mbind res_bind].
    destruct (laplacian_sum_from_zero hessian u x N
                (if 1 <? M then Some i else None) (H2 i) (seq dim (K - dim)))
      as (t & Ht & Hq).
    - destruct (K - dim) eqn:E; [lia|done].
    - apply Hhess; lia.
    - exists (PyTensor t). split; [exact Ht|]. by exists t. }
  rewrite Hcomps. cbn [mbind res_bind]. unfold cat_components.
  edestruct (for_each_Forall2
    (fun v : pyval => match v with
                      | PyTensor t => Ok t
                      | PyNum _ => Raise TypeError
                      end)
    (fun v t => v = @PyTensor R t) comps) as (ts & Hts & HF2).
  { intros v Hv. apply list_elem_of_lookup in Hv as [i Hv].
    destruct (Forall2_lookup_r _ _ _ _ _ HF Hv) as (i' & _ & t & -> & _).
    by exists t. }
  rewrite Hts. cbn [mbind res_bind].
  assert (Forall2 Q (seq 0 M) ts) as HQ.
  { apply Forall2_same_length_lookup. split.
    - rewrite (Forall2_length _ _ _ HF). apply (Forall2_length _ _ _ HF2).
    - intros i i' t Hi Ht.
      destruct (Forall2_lookup_l _ _ _ _ _ HF Hi) as (v & Hv & t' & -> & Hq).
      destruct (Forall2_lookup_l _ _ _ _ _ HF2 Hv) as (t'' & Ht'' & E).
      inversion E; subst. congruence. }
  assert (length ts = M) as Hlen
    by (rewrite <- (Forall2_length _ _ _ HQ); apply length_seq).
  destruct (torch_cat_columns ts N) as (v & Hv & Hsv & Hwv & Hent).
  { destruct ts; simpl in Hlen; [lia|done]. }
  { apply Forall_forall. intros t Ht. apply list_elem_of_lookup in Ht as [i Ht].
    destruct (Forall2_lookup_r _ _ _ _ _ HQ Ht) as (i' & _ & Hs & Hw & _). done. }
  exists v. rewrite Hlen in *. repeat split; try done.
  intros n m Hn Hm. unfold at2. rewrite Hsv. cbn [nth].
  rewrite nth_lookup, Hent by done.
  destruct (Forall2_lookup_l _ _ _ _ _ HQ (lookup_seq_lt 0 M m Hm))
    as (t & Ht & Hs & Hw & Hval).
  rewrite Ht. cbn [mbind option_bind]. simpl in Hval.
  rewrite <- nth_lookup, Hval by done.
  f_equal. apply map_ext_Forall, Forall_forall. intros j Hj.
  destruct (Hhess m Hm j Hj) as (_ & Hsj & _). rewrite Hsj. cbn [nth].
  f_equal. lia.
Qed.

(** ** The Helmholtz residual *)

Section Residual.
Context {T : Type} `{Scalar T}.
Variable dflt : T.
Variable hessian :
  Tensor T -> Tensor T -> option nat -> nat -> nat -> res (Tensor T).

Lemma lookup_nth_dflt (l : list T) i :
  i < length l -> l !! i = Some (nth i l dflt).
Proof.
  intros Hi. destruct (lookup_lt_is_Some_2 l i Hi) as [v Hv].
  by rewrite (nth_lookup_Some _ _ _ _ Hv).
Qed.

(** The entries of the residual over an arbitrary scalar structure; the
    displacement and its Laplacian enter through [s_detach] exactly when
    the instance has its [detach] flag set. *)
Lemma WaveEquation_call_entries
    (self : WaveEquation) (x outputs u lap : Tensor T) (N : nat) :
  shape x = [N; 4] -> wf_tensor x ->
  shape outputs = [N; 4] -> wf_tensor outputs ->
  slice_axis1 None (Some (-1)%Z) outputs = Ok u ->
  laplacian hessian u x 1 = Ok lap ->
  shape lap = [N; 3] -> wf_tensor lap ->
  exists r, WaveEquation_call hessian self x outputs = Ok r
    /\ shape r = [N; 3] /\ wf_tensor r
    /\ forall n m, n < N -> m < 3 ->
         at2 dflt r n m
         = s_add
             (s_mul (at2 dflt outputs n 3)
                    (maybe_detach (detach self) (at2 dflt lap n m)))
             (s_mul
                (s_mul (s_const (rho self))
                       (s_pow (s_mul (s_const (2 * PI)) (at2 dflt x n 0)) 2))
                (maybe_detach (detach self) (at2 dflt outputs n m))).
Proof.
  intros Hx Wx Ho Wo Hu Hlap Hsl Wl.
  unfold wf_tensor in *. rewrite ?Hx, ?Ho, ?Hsl in *.
  change (numel [N; 4]) with (N * (4 * 1)) in *.
  change (numel [N; 3]) with (N * (3 * 1)) in *.
  unfold WaveEquation_call. rewrite Hu. cbn [mbind res_bind].
  rewrite (slice_axis1_2d _ _ outputs N 4 Ho).
  rewrite (slice_axis1_2d _ _ x N 4 Hx).
  rewrite (slice_axis1_2d _ _ outputs N 4 Ho) in Hu.
  change (py_slice None (Some (-1)%Z) 4) with (0, 3) in *.
  change (py_slice (Some (-1)%Z) None 4) with (3, 1) in *.
  change (py_slice None (Some 1%Z) 4) with (0, 1) in *.
  cbn [fst snd] in *. injection Hu as <-.
  rewrite Hlap. cbn [mbind res_bind].
  set (U := concat (map (fun row => take 3 (drop 0 row))
                        (blocks N 4 (data outputs)))).
  set (MU := concat (map (fun row => take 1 (drop 3 row))
                         (blocks N 4 (data outputs)))).
  set (OM := concat (map (fun row => take 1 (drop 0 row))
                         (blocks N 4 (data x)))).
  assert (length U = N * 3) as LU by (apply length_slice_rows; lia).
  assert (length MU = N * 1) as LMU by (apply length_slice_rows; lia).
  assert (length OM = N * 1) as LOM by (apply length_slice_rows; lia).
  set (F := tscale (rho self)
              (tpow (tscale (2 * PI) (mkTensor [N; 1] OM (requires_grad x))) 2)).
  set (uu := if detach self
             then (tdetach (mkTensor [N; 3] U (requires_grad outputs)),
                   tdetach lap)
             else (mkTensor [N; 3] U (requires_grad outputs), lap)).
  assert (shape uu.1 = [N; 3]
          /\ data uu.1 = map (maybe_detach (detach self)) U
          /\ shape uu.2 = [N; 3]
          /\ data uu.2 = map (maybe_detach (detach self)) (data lap))
    as (Su & Du & Sl & Dl).
  { subst uu. unfold maybe_detach.
    destruct (detach self); cbn [fst snd tdetach shape data];
      rewrite ?map_id; auto. }
  destruct uu as [u' lap']. cbn [fst snd] in *.
  unfold tmul.
  rewrite (tbin_column _ _ lap' N 3)
    by (unfold wf_tensor; rewrite ?Sl, ?Dl; cbn [shape data numel foldr];
        rewrite ?length_map; lia || done).
  cbn [mbind res_bind].
  rewrite (tbin_column _ F u' N 3)
    by (unfold wf_tensor, F, tscale, tpow, tmap; rewrite ?Su, ?Du;
        cbn [shape data numel foldr]; rewrite ?length_map; lia || done).
  cbn [mbind res_bind]. unfold tadd.
  assert (length (concat (map (replicate 3) MU)) = N * 3) as LM3.
  { rewrite (length_concat_uniform _ 3).
    - rewrite length_map. lia.
    - apply Forall_map, Forall_true. intros; apply length_replicate. }
  assert (length (concat (map (replicate 3) (data F))) = N * 3) as LF3.
  { rewrite (length_concat_uniform _ 3).
    - unfold F, tscale, tpow, tmap. cbn [data]. rewrite !length_map. lia.
    - apply Forall_map, Forall_true. intros; apply length_replicate. }
  rewrite tbin_same; cbn [shape data];
    [|done|unfold wf_tensor; cbn [shape data numel foldr];
            rewrite length_zip_with, LM3, Dl, length_map; lia
          |unfold wf_tensor; cbn [shape data numel foldr];
            rewrite length_zip_with, LF3, Du, length_map; lia].
  eexists. split; [reflexivity|]. cbn [shape data].
  split; [reflexivity|]. split.
  { unfold wf_tensor. cbn [shape data numel foldr].
    rewrite !length_zip_with, LM3, LF3, Dl, Du, !length_map. lia. }
  intros n m Hn Hm. unfold at2. rewrite Ho, Hx, Hsl. cbn [shape data nth].
  rewrite nth_lookup, !lookup_zip_with.
  rewrite (lookup_replicate_rows 3 MU n m Hm).
  rewrite (lookup_replicate_rows 3 (data F) n m Hm).
  replace (MU !! n) with (MU !! (n * 1 + 0)) by (f_equal; lia).
  subst MU. rewrite (lookup_slice_rows N 4 3 1) by lia.
  rewrite (lookup_nth_dflt (data outputs)) by lia.
  rewrite Dl, list_lookup_fmap, (lookup_nth_dflt (data lap)) by lia.
  unfold F, tscale, tpow, tmap. cbn [data]. rewrite !list_lookup_fmap.
  replace (OM !! n) with (OM !! (n * 1 + 0)) by (f_equal; lia).
  subst OM. rewrite (lookup_slice_rows N 4 0 1) by lia.
  rewrite (lookup_nth_dflt (data x)) by lia.
  rewrite Du, list_lookup_fmap. subst U.
  rewrite (lookup_slice_rows N 4 0 3) by lia.
  rewrite (lookup_nth_dflt (data outputs) (n * 4 + 0 + m)) by lia.
  cbn. rewrite !Nat.add_0_r. reflexivity.
Qed.
End Residual.

(** C1.  Let [self] be the instance that [WaveEquation(detach, rho)] builds;
    its density is the [rho] given, and 1000 when none is given.  On an
    input [x] of shape N×4 and an [outputs] tensor of shape N×4, with [lap]
    the N×3 Laplacian of the displacement columns, calling [self] returns
    the N×3 tensor whose entry [n, m] is
    mu_n * lap[n, m] + rho * (2 * PI * omega_n)^2 * u[n, m], where mu is the
    last output column, u the other output columns and omega the first
    input column. *)
Theorem WaveEquation_call_residual
    (hessian : Tensor R -> Tensor R -> option nat -> nat -> nat -> res (Tensor R))
    (flag : bool) (rho_arg : option R) (debug_arg : option bool)
    (x outputs u lap : Tensor R) (N : nat) :
  shape x = [N; 4] -> wf_tensor x ->
  shape outputs = [N; 4] -> wf_tensor outputs ->
  slice_axis1 None (Some (-1)%Z) outputs = Ok u ->
  laplacian hessian u x 1 = Ok lap ->
  shape lap = [N; 3] -> wf_tensor lap ->
  exists r,
    WaveEquation_call hessian (WaveEquation_init flag rho_arg debug_arg)
      x outputs = Ok r
    /\ shape r = [N; 3] /\ wf_tensor r
    /\ forall n m, n < N -> m < 3 ->
         at2 0%R r n m
         = (at2 0 outputs n 3 * at2 0 lap n m
            + default 1000 rho_arg * (2 * PI * at2 0 x n 0) ^ 2
              * at2 0 outputs n m)%R.
Proof.
  intros Hx Wx Ho Wo Hu Hlap Hsl Wl.
  destruct (WaveEquation_call_entries 0%R hessian
              (WaveEquation_init flag rho_arg debug_arg) x outputs u lap N)
    as (r & Hr & Hs & Hw & Hent); try done.
  exists r. repeat split; try done.
  intros n m Hn Hm. rewrite Hent by done.
  unfold maybe_detach. cbn [WaveEquation_init detach rho].
  destruct flag; reflexivity.
Qed.

(** ** Gradient flow through the residual *)

(** C7.  Scalars are dual numbers whose tangent is the derivative with
    respect to a parameter of the displacement network; the modulus column
    and the frequency column do not depend on that parameter.  With the
    [detach] flag set, every entry of the residual has tangent exactly zero,
    and so has every loss that is computed from the residual alone.  With
    the flag cleared, the tangent of entry [n, m] is
    mu_n * d(lap[n, m]) + rho * (2 * PI * omega_n)^2 * d(u[n, m]): the
    residual is differentiated through the displacement and its Laplacian,
    and its gradient is nonzero wherever that expression is. *)
Theorem WaveEquation_detach_gradient
    (hessian : Tensor Dual -> Tensor Dual -> option nat -> nat -> nat
               -> res (Tensor Dual))
    (self : WaveEquation) (x outputs u lap : Tensor Dual) (N : nat)
    (pde_loss : Tensor Dual -> Dual) :

  shape x = [N; 4] -> wf_tensor x ->
  shape outputs = [N; 4] -> wf_tensor outputs ->
  slice_axis1 None (Some (-1)%Z) outputs = Ok u ->
  laplacian hessian u x 1 = Ok lap ->
  shape lap = [N; 3] -> wf_tensor lap ->
  (forall n, n < N -> tangent (at2 dual_zero outputs n 3) = 0%R) ->
  (forall n, n < N -> tangent (at2 dual_zero x n 0) = 0%R) ->
  (forall t, zero_tangent t -> tangent (pde_loss t) = 0%R) ->
  exists r, WaveEquation_call hessian self x outputs = Ok r
    /\ (forall n m, n < N -> m < 3 ->
          tangent (at2 dual_zero r n m)
          = if detach self then 0%R
            else (primal (at2 dual_zero outputs n 3) * tangent (at2 dual_zero lap n m)
                  + rho self * (2 * PI * primal (at2 dual_zero x n 0)) ^ 2
                    * tangent (at2 dual_zero outputs n m))%R)
    /\ (detach self = true -> tangent (pde_loss r) = 0%R).
Proof.
  intros Hx Wx Ho Wo Hu Hlap Hsl Wl Hmu Hom Hloss.
  destruct (WaveEquation_call_entries dual_zero hessian self x outputs u lap N)
    as (r & Hr & Hs & Hw & Hent); try done.
  assert (forall n m, n < N -> m < 3 ->
            tangent (at2 dual_zero r n m)
            = if detach self then 0%R
              else (primal (at2 dual_zero outputs n 3) * tangent (at2 dual_zero lap n m)
                    + rho self * (2 * PI * primal (at2 dual_zero x n 0)) ^ 2
                      * tangent (at2 dual_zero outputs n m))%R) as Htan.
  { intros n m Hn Hm. rewrite Hent by done.
    specialize (Hmu n Hn). specialize (Hom n Hn).
    unfold maybe_detach. destruct (detach self); cbn; rewrite Hmu, Hom; ring. }
  exists r. split; [exact Hr|]. split; [exact Htan|].
  intros Hd. apply Hloss. unfold zero_tangent.
  apply Forall_lookup. intros i e Hi.
  assert (i < N * 3) as Hlt.
  { apply lookup_lt_Some in Hi. unfold wf_tensor in Hw.
    rewrite Hs in Hw. simpl in Hw. lia. }
  specialize (Htan (i / 3) (i mod 3)).
  rewrite Hd in Htan. unfold at2 in Htan. rewrite Hs in Htan. cbn [nth] in Htan.
  replace (i / 3 * 3 + i mod 3) with i in Htan
    by (pose proof (Nat.div_mod_eq i 3); lia).
  rewrite (nth_lookup_Some _ _ _ _ Hi) in Htan. apply Htan.
  - apply Nat.Div0.div_lt_upper_bound; lia.
  - apply Nat.mod_upper_bound; lia.
Qed.

(** ** Extracting the tensors of one patient *)

Lemma resolve_y (a x u mu mask : ndarray) :
  resolve "y"
    [("self", ObjOther); ("idx", ObjOther); ("patch_size", ObjOther);
     ("patient", ObjOther); ("a_sequences", ObjOther); ("a_arrays", ObjOther);
     ("a", ObjArray a); ("x", ObjArray x); ("u", ObjArray u);
     ("mu", ObjArray mu); ("mask", ObjArray mask)]
  = Raise (NameError "y").
Proof. reflexivity. Qed.

(** C9.  For a patient of the cohort whose arrays are co-registered on a
    grid of shape [sh], [get_tensors] without a patch size returns as inputs
    the pair (wave displacement, coordinates scaled by 1e-3), as targets the
    concatenation of displacement, elastogram and mask along the last axis
    (so cell [i] of the targets is [u_i; mu_i; mask_i]), and the empty tuple
    of auxiliary tensors.  The four anatomical arrays are read and stacked,
    but none of their values occurs in the result. *)
Theorem get_tensors_without_patch
    (self : PINOData.t) (idx : nat) (patient : Patient) (sh : list nat)
    (t1_in t1_out t1_water t1_fat wave mre mre_mask : XArray)
    (g : RandomState) :
  PINOData.cohort self !! idx = Some patient ->
  coregistered patient sh ->
  arrays patient !! "t1_pre_in" = Some t1_in ->
  arrays patient !! "t1_pre_out" = Some t1_out ->
  arrays patient !! "t1_pre_water" = Some t1_water ->
  arrays patient !! "t1_pre_fat" = Some t1_fat ->
  arrays patient !! "wave" = Some wave ->
  arrays patient !! "mre" = Some mre ->
  arrays patient !! "mre_mask" = Some mre_mask ->
  exists target,
    PINOData.get_tensors self idx None g
    = (Ok ([torch_tensor (expand_last (values wave)) (PINOData.device self);
            torch_tensor (np_scale (points wave) (/ 1000))
              (PINOData.device self)],
           target, []), g)
    /\ torch_cat_last
         [torch_tensor (expand_last (values wave)) (PINOData.device self);
          torch_tensor (expand_last (values mre)) (PINOData.device self);
          torch_tensor (expand_last (values mre_mask)) (PINOData.device self)]
       = Ok target
    /\ shape target = sh ++ [3]
    /\ forall i, i < numel sh ->
         data target !! (i * 3) = a_data (values wave) !! i
         /\ data target !! (i * 3 + 1) = a_data (values mre) !! i
         /\ data target !! (i * 3 + 2) = a_data (values mre_mask) !! i.
Proof.
  intros Hp Hco H1 H2 H3 H4 Hw Hm Hk.
  destruct (Hco _ _ H1) as [S1 _]. destruct (Hco _ _ H2) as [S2 _].
  destruct (Hco _ _ H3) as [S3 _]. destruct (Hco _ _ H4) as [S4 _].
  destruct (Hco _ _ Hw) as [Sw Ww]. destruct (Hco _ _ Hm) as [Sm Wm].
  destruct (Hco _ _ Hk) as [Sk Wk].
  set (dev := PINOData.device self).
  destruct (torch_cat_channels
              [torch_tensor (expand_last (values wave)) dev;
               torch_tensor (expand_last (values mre)) dev;
               torch_tensor (expand_last (values mre_mask)) dev] sh)
    as (target & Ht & Hst & _ & Hent); [done| |].
  { unfold wf_array, wf_tensor in *.
    repeat apply Forall_cons_2; try apply Forall_nil_2;
      cbn [torch_tensor expand_last shape data a_shape a_data];
      rewrite ?Sw, ?Sm, ?Sk, ?numel_app in *; simpl; split; (done || lia). }
  assert (torch_cat_last
            [torch_tensor (expand_last (values wave)) dev;
             torch_tensor (expand_last (values mre)) dev;
             torch_tensor (expand_last (values mre_mask)) dev] = Ok target)
    as Hcat.
  { unfold torch_cat_last.
    cbn [torch_tensor expand_last shape a_shape]. rewrite Sw, length_app.
    simpl. rewrite Nat.add_1_r. exact Ht. }
  exists target. split; [|split; [exact Hcat|split; [exact Hst|]]].
  - unfold PINOData.get_tensors, mbind, Rand_bind, lift, mret, Rand_ret.
    unfold get_patient. rewrite Hp.
    cbn [for_each a_sequences]. unfold get_array.
    rewrite H1, H2, H3, H4. cbn [fmap res_fmap mbind res_bind].
    unfold np_stack_last. cbn [forallb]. rewrite S1, S2, S3, S4.
    rewrite !bool_decide_true by done. cbn [andb].
    rewrite Hw, Hm, Hk. fold dev. rewrite Hcat. reflexivity.
  - intros i Hi. simpl in Hent.
    pose proof (Hent i 0 Hi ltac:(lia)) as E0.
    pose proof (Hent i 1 Hi ltac:(lia)) as E1.
    pose proof (Hent i 2 Hi ltac:(lia)) as E2.
    rewrite Nat.add_0_r in E0. auto.
Qed.

Lemma get_tensors_patch_never_returns
    (self : PINOData.t) (idx P : nat) (g : RandomState) :
  exists e, PINOData.get_tensors self idx (Some P) g = (Raise e, g).
Proof.
  unfold PINOData.get_tensors, mbind, Rand_bind, lift.
  destruct (get_patient _ _) as [patient|e]; [|by eexists].
  destruct (for_each _ _) as [a_arrays|e]; [|by eexists].
  destruct (np_stack_last _) as [a|e]; [|by eexists].
  destruct (get_array patient "wave") as [wave|e]; [|by eexists].
  destruct (get_array patient "mre") as [mre|e]; [|by eexists].
  destruct (get_array patient "mre_mask") as [mre_mask|e]; [|by eexists].
  rewrite resolve_y. by eexists.
Qed.

(** Wherever the call without a patch size returns, the call with one
    raises the [NameError] for [y]. *)
Lemma get_tensors_patch_NameError
    (self : PINOData.t) (idx P : nat) (g g' : RandomState) r :
  PINOData.get_tensors self idx None g = (Ok r, g') ->
  PINOData.get_tensors self idx (Some P) g = (Raise (NameError "y"), g).
Proof.
  unfold PINOData.get_tensors, mbind, Rand_bind, lift.
  destruct (get_patient _ _) as [patient|e]; [|discriminate].
  destruct (for_each _ _) as [a_arrays|e]; [|discriminate].
  destruct (np_stack_last _) as [a|e]; [|discriminate].
  destruct (get_array patient "wave") as [wave|e]; [|discriminate].
  destruct (get_array patient "mre") as [mre|e]; [|discriminate].
  destruct (get_array patient "mre_mask") as [mre_mask|e]; [|discriminate].
  intros _. by rewrite resolve_y.
Qed.

(** C2.  With a patch size, [get_tensors] never returns: whatever the
    cohort, the index and the patch size, the call raises, and no random
    offset is drawn.  On the example cohort, whose arrays load, the call
    with patch size 1 raises the [NameError] for the unbound name [y]. *)
Theorem get_tensors_patch_raises :
  (forall (self : PINOData.t) (idx P : nat) (g : RandomState),
     exists e, PINOData.get_tensors self idx (Some P) g = (Raise e, g))
  /\ PINOData.get_tensors ex_data 0 (Some 1) ex_rng
     = (Raise (NameError "y"), ex_rng).
Proof.
  split.
  - apply get_tensors_patch_never_returns.
  - vm_compute. reflexivity.
Qed.

(** ** The three loss terms *)

Lemma torch_split_last_3 {T} (t : Tensor T) (lead : list nat) :
  shape t = lead ++ [3] ->
  torch_split_last t = Ok [channel 0 t; channel 1 t; channel 2 t].
Proof.
  intros Hs. unfold torch_split_last. rewrite Hs, last_last.
  destruct lead; reflexivity.
Qed.

(** C3.  For targets with three channels along the last axis,
    [u_true], [mu_true] and [mask] are channels 0, 1 and 2, and [losses]
    returns the list of exactly three terms, in this order: the loss of the
    displacement, the loss of the modulus, and the loss of the PDE residual
    [pde(x, u_pred, mu_pred)] against the number 0, each computed by the
    caller's [loss_fn] with the mask and the mask level of the instance. *)
Theorem losses_ordered_triple {L Model Aux : Type}
    (self : PINOData.t) (targets a x u_pred mu_pred pde_res : Tensor R)
    (rest : list (Tensor R)) (lead : list nat)
    (loss_fn : @pyval R -> Tensor R -> Tensor R -> R -> res L)
    (model : Model) (aux : option Aux) (u_loss mu_loss pde_loss : L) :
  shape targets = lead ++ [3] ->
  loss_fn (PyTensor (channel 0 targets)) u_pred (channel 2 targets)
    (PINOData.mask_level self) = Ok u_loss ->
  loss_fn (PyTensor (channel 1 targets)) mu_pred (channel 2 targets)
    (PINOData.mask_level self) = Ok mu_loss ->
  pde_call (PINOData.pde self) x u_pred mu_pred = Ok pde_res ->
  loss_fn (PyNum 0) pde_res (channel 2 targets) (PINOData.mask_level self)
    = Ok pde_loss ->
  PINOData.losses self targets (u_pred :: mu_pred :: rest) loss_fn [a; x]
    model aux
  = Ok [u_loss; mu_loss; pde_loss].
Proof.
  intros Hs Hu Hmu Hpde Hl. unfold PINOData.losses.
  rewrite (torch_split_last_3 targets lead Hs).
  change (take 2 (u_pred :: mu_pred :: rest)) with [u_pred; mu_pred].
  cbn [unpack2 unpack3 mbind res_bind].
  rewrite Hu. cbn [mbind res_bind]. rewrite Hmu. cbn [mbind res_bind].
  rewrite Hpde. cbn [mbind res_bind]. rewrite Hl. reflexivity.
Qed.

(** ** The mask level *)

Lemma train_next_batch_mask_level s batch_size return_inds g :
  PINOData.mask_level (PINOData.train_next_batch s batch_size return_inds g).1.2
  = PINOData.mask_level s.
Proof.
  unfold PINOData.train_next_batch.
  destruct (match batch_size with
            | Some (S b) => Some (S b)
            | _ => PINOData.batch_size s
            end) as [B|]; [|reflexivity].
  destruct (BatchSampler.get_next _ _ _) as [[[inds|e] sampler] g'];
    [|reflexivity].
  destruct (PINOData.collate _ _ _ _). reflexivity.
Qed.

(** C10.  In every state the pipeline can reach, the mask level is 1.0, so
    [losses] gives the same result as with a loss function that is handed
    the mask strength 1.0 whatever it is called with. *)
Theorem mask_level_always_one (s : PINOData.t) :
  reachable s ->
  PINOData.mask_level s = 1%R
  /\ forall (L Model Aux : Type) targets outputs
       (loss_fn : @pyval R -> Tensor R -> Tensor R -> R -> res L)
       inputs (model : Model) (aux : option Aux),
       PINOData.losses s targets outputs loss_fn inputs model aux
       = PINOData.losses s targets outputs
           (fun target pred mask _ => loss_fn target pred mask 1%R)
           inputs model aux.
Proof.
  intros Hr.
  assert (PINOData.mask_level s = 1%R) as H1.
  { induction Hr as [cohort pde ps bs dev g|s B ret g _ IH|s ret g _ IH].
    - unfold PINOData.init. destruct (BatchSampler.init _ _ _). reflexivity.
    - by rewrite train_next_batch_mask_level.
    - unfold PINOData.test. by rewrite train_next_batch_mask_level. }
  split; [exact H1|]. intros. unfold PINOData.losses. rewrite H1. reflexivity.
Qed.

(** ** Prediction *)

(** C4.  [predict] turns gradient tracking on for [x], runs the forward
    pass of the network on [(a, x)] to get the displacement and the modulus,
    takes the Laplacian of the predicted displacement with respect to [x],
    asks the PDE object for the traction and body forces, and returns the
    five tensors; the caller's [x] is left with gradient tracking on. *)
Theorem predict_returns_all
    (hessian : Tensor R -> Tensor R -> option nat -> nat -> nat -> res (Tensor R))
    (self : PINOModel.t) (a x u_pred mu_pred lu_pred f_trac f_body : Tensor R) :
  forward (PINOModel.net self) (a, set_requires_grad x) true
    = Ok [u_pred; mu_pred] ->
  laplacian hessian u_pred (set_requires_grad x) 0 = Ok lu_pred ->
  traction_and_body_forces (PINOData.pde (PINOModel.data self))
    (set_requires_grad x) u_pred mu_pred = Ok (f_trac, f_body) ->
  PINOModel.predict hessian self a x
  = (Ok (u_pred, mu_pred, lu_pred, f_trac, f_body), set_requires_grad x)
  /\ requires_grad (set_requires_grad x) = true
  /\ shape (set_requires_grad x) = shape x
  /\ data (set_requires_grad x) = data x.
Proof.
  intros Hf Hl Ht. unfold PINOModel.predict.
  rewrite Hf. cbn [mbind res_bind unpack2]. rewrite Hl. cbn [mbind res_bind].
  rewrite Ht. repeat split.
Qed.

(** ** The closed-form baseline of [PINOModel.test] *)

(** C6.  When [PINOModel.test] gets its predictions, the baseline modulus
    [Mu_pred] has, at every position [i] of the predicted displacement, the
    value -1000 * (2 * PI * 80)^2 * u_pred[i] / lu_pred[i].  This holds at
    every position, whatever the denominator [lu_pred[i]] is: the quotient
    is taken entry by entry with the division of the backend, and nothing
    else (no mask, no bound, no test on the denominator) enters it. *)
Theorem test_baseline_quotient
    (hessian : Tensor R -> Tensor R -> option nat -> nat -> nat -> res (Tensor R))
    (self self' : PINOModel.t) (g g' : RandomState)
    (p : PINOModel.Predictions) :
  PINOModel.test_predictions hessian self g = (Ok p, self', g') ->
  shape (PINOModel.lu_pred p) = shape (PINOModel.u_pred p) ->
  wf_tensor (PINOModel.u_pred p) -> wf_tensor (PINOModel.lu_pred p) ->
  shape (PINOModel.Mu_pred p) = shape (PINOModel.u_pred p)
  /\ wf_tensor (PINOModel.Mu_pred p)
  /\ forall i, i < numel (shape (PINOModel.u_pred p)) ->
       nth i (data (PINOModel.Mu_pred p)) 0%R
       = (-1000 * (2 * PI * 80) ^ 2 * nth i (data (PINOModel.u_pred p)) 0
          / nth i (data (PINOModel.lu_pred p)) 0)%R.
Proof.
  unfold PINOModel.test_predictions.
  destruct (PINOData.test _ _ _) as [[r d] g1].
  intros Heq Hs Wu Wl. injection Heq as Hp _ _.
  apply res_bind_Ok in Hp as (batch & _ & Hp).
  apply res_bind_Ok in Hp as ([a x] & _ & Hp).
  apply res_bind_Ok in Hp as ([[[[u mu] lu] ft] fb] & _ & Hp).
  apply res_bind_Ok in Hp as (M & HM & Hp).
  injection Hp as <-.
  cbn [PINOModel.u_pred PINOModel.lu_pred PINOModel.Mu_pred] in *.
  unfold tdiv in HM. rewrite tbin_same in HM; try done.
  - injection HM as <-. cbn [shape data tscale tmap].
    unfold wf_tensor in *. cbn [shape data tscale tmap] in *.
    split; [reflexivity|]. split.
    + rewrite length_zip_with, length_map. rewrite Hs in Wl. lia.
    + intros i Hi. rewrite nth_zip_with_R
        by (rewrite ?length_map; rewrite Hs in Wl; lia).
      rewrite !nth_lookup, list_lookup_fmap.
      destruct (lookup_lt_is_Some_2 (data u) i) as [v ->]; [lia|].
      reflexivity.
  - unfold wf_tensor in *. cbn [shape data tscale tmap].
    by rewrite length_map.
Qed.

(** ** The batch sampler *)

Lemma shuffle_pick_perm fuel pool g :
  length pool = fuel -> (shuffle_pick fuel pool g).1 ≡ₚ pool.
Proof.
  revert pool g. induction fuel as [|fuel IH]; intros pool g Hlen; simpl.
  - destruct pool; [done|discriminate].
  - assert (raw g (consumed g) mod length pool < length pool) as Hj
      by (apply Nat.mod_upper_bound; lia).
    destruct (lookup_lt_is_Some_2 pool _ Hj) as [v Hv]. rewrite Hv.
    destruct (shuffle_pick fuel _ _) as [rest g''] eqn:E. simpl.
    rewrite (delete_Permutation pool _ v Hv). constructor.
    replace rest with (shuffle_pick fuel
      (delete (raw g (consumed g) mod length pool) pool)
      (mkRandomState (raw g) (S (consumed g)))).1 by (by rewrite E).
    apply IH. rewrite length_delete by eauto. lia.
Qed.

Lemma shuffle_perm l g : (shuffle l g).1 ≡ₚ l.
Proof. by apply shuffle_pick_perm. Qed.

Lemma BatchSampler_init_ok n flag g :
  sampler_ok n (BatchSampler.init n flag g).1
  /\ BatchSampler.index_in_epoch (BatchSampler.init n flag g).1 = 0
  /\ BatchSampler.epochs_completed (BatchSampler.init n flag g).1 = 0.
Proof.
  unfold BatchSampler.init, sampler_ok. destruct flag.
  - pose proof (shuffle_perm (seq 0 n) g) as Hp.
    destruct (shuffle (seq 0 n) g) as [ind g']. simpl in *.
    repeat split; try done. lia.
  - simpl. repeat split; try done. lia.
Qed.

(** One call of [get_next] on a consistent sampler: the indices drawn so
    far in the current ordering, followed by the batch, are the orderings
    completed by this call followed by the part of the current ordering
    that is drawn now. *)
Lemma get_next_history n s B g inds s' g' :
  sampler_ok n s ->
  BatchSampler.get_next s B g = (Ok inds, s', g') ->
  sampler_ok n s' /\ length inds = B
  /\ exists prev,
       Forall (fun o => o ≡ₚ seq 0 n) prev
       /\ length prev
          = BatchSampler.epochs_completed s' - BatchSampler.epochs_completed s
       /\ BatchSampler.epochs_completed s <= BatchSampler.epochs_completed s'
       /\ take (BatchSampler.index_in_epoch s) (BatchSampler.indices s) ++ inds
          = concat prev
            ++ take (BatchSampler.index_in_epoch s') (BatchSampler.indices s').
Proof.
  intros (Hn & Hp & Hc) Hget. unfold BatchSampler.get_next in Hget.
  assert (length (BatchSampler.indices s) = n) as Hlen
    by (by rewrite Hp, length_seq).
  rewrite Hn in Hget.
  destruct (n <? B) eqn:HB; [discriminate|]. apply Nat.ltb_ge in HB.
  destruct (BatchSampler.index_in_epoch s + B <=? n) eqn:Hfit.
  - apply Nat.leb_le in Hfit. injection Hget as <- <- <-.
    unfold sampler_ok. cbn. repeat split; try done.
    + rewrite length_take, length_drop. lia.
    + exists []. repeat split; [constructor|simpl; lia|lia|]. simpl.
      by rewrite take_take_drop.
  - apply Nat.leb_gt in Hfit.
    assert (exists ind g1,
              (if BatchSampler.shuffle_flag s
               then shuffle (BatchSampler.indices s) g
               else (BatchSampler.indices s, g)) = (ind, g1)
              /\ ind ≡ₚ seq 0 n) as (ind & g1 & Hsh & Hind).
    { destruct (BatchSampler.shuffle_flag s).
      - pose proof (shuffle_perm (BatchSampler.indices s) g) as Hs.
        destruct (shuffle _ g) as [ind g1]. exists ind, g1. simpl in Hs.
        split; [done|]. by rewrite Hs.
      - by exists (BatchSampler.indices s), g. }
    rewrite Hsh in Hget. injection Hget as <- <- <-.
    assert (length ind = n) as Hlen' by (by rewrite Hind, length_seq).
    unfold sampler_ok. cbn. repeat split; try done; try lia.
    + rewrite length_app, !length_take, length_drop. lia.
    + exists [BatchSampler.indices s].
      repeat split; [by constructor|simpl; lia|lia|]. simpl.
      rewrite app_nil_r, app_assoc. f_equal.
      rewrite (take_ge (drop _ _)) by (rewrite length_drop; lia).
      apply take_drop.
Qed.

(** ** Drawing batches *)

Lemma rand_bind_Ok {A B} (m : Rand A) (f : A -> Rand B) g b g' :
  (m ≫= f) g = (Ok b, g') ->
  exists a g1, m g = (Ok a, g1) /\ f a g1 = (Ok b, g').
Proof.
  unfold mbind, Rand_bind. destruct (m g) as [[a|e] g1]; [|discriminate].
  intros Hf. by exists a, g1.
Qed.

Lemma collate_inds self inds ret g batch g' :
  PINOData.collate self inds ret g = (Ok batch, g') ->
  b_inds batch = if ret then Some inds else None.
Proof.
  unfold PINOData.collate. intros H.
  apply rand_bind_Ok in H as (items & g1 & _ & H).
  apply rand_bind_Ok in H as (inputs & g2 & _ & H).
  apply rand_bind_Ok in H as (targets & g3 & _ & H).
  apply rand_bind_Ok in H as (aux & g4 & _ & H).
  by injection H as <- _.
Qed.

(** What a call of [train_next_batch] with a positive batch size does to
    the sampler, whether or not the tensors load afterwards. *)
Lemma train_next_batch_sampler self b ret g :
  PINOData.batch_sampler (PINOData.train_next_batch self (Some (S b)) ret g).1.2
  = (BatchSampler.get_next (PINOData.batch_sampler self) (S b) g).1.2.
Proof.
  unfold PINOData.train_next_batch.
  destruct (BatchSampler.get_next _ _ _) as [[[inds|e] sampler] g1];
    [|reflexivity].
  destruct (PINOData.collate _ _ _ _). reflexivity.
Qed.

Lemma train_next_batch_inv self b ret g batch self' g' :
  PINOData.train_next_batch self (Some (S b)) ret g = (Ok batch, self', g') ->
  exists inds g1,
    BatchSampler.get_next (PINOData.batch_sampler self) (S b) g
    = (Ok inds, PINOData.batch_sampler self', g1)
    /\ b_inds batch = if ret then Some inds else None.
Proof.
  unfold PINOData.train_next_batch.
  destruct (BatchSampler.get_next _ _ _) as [[[inds|e] sampler] g1];
    [|discriminate].
  destruct (PINOData.collate _ _ _ _) as [r g2] eqn:Hc.
  intros [= -> <- <-]. exists inds, g1. split; [reflexivity|].
  by apply collate_inds in Hc.
Qed.

Lemma get_next_within_epoch n s B g :
  sampler_ok n s -> BatchSampler.index_in_epoch s + B <= n ->
  BatchSampler.get_next s B g
  = (Ok (take B (drop (BatchSampler.index_in_epoch s) (BatchSampler.indices s))),
     BatchSampler.mk (BatchSampler.num_samples s) (BatchSampler.shuffle_flag s)
       (BatchSampler.indices s) (BatchSampler.epochs_completed s)
       (BatchSampler.index_in_epoch s + B),
     g).
Proof.
  intros (Hn & _ & _) Hfit. unfold BatchSampler.get_next. rewrite Hn.
  assert ((n <? B) = false) as -> by (apply Nat.ltb_ge; lia).
  assert ((BatchSampler.index_in_epoch s + B <=? n) = true) as ->
    by (apply Nat.leb_le; lia).
  reflexivity.
Qed.

Lemma get_next_exhausted n s B g :
  sampler_ok n s -> B <= n -> n < BatchSampler.index_in_epoch s + B ->
  BatchSampler.shuffle_flag s = true ->
  BatchSampler.indices (BatchSampler.get_next s B g).1.2
  = (shuffle (BatchSampler.indices s) g).1
  /\ BatchSampler.epochs_completed (BatchSampler.get_next s B g).1.2
     = S (BatchSampler.epochs_completed s).
Proof.
  intros (Hn & _ & _) HB Hex Hflag. unfold BatchSampler.get_next.
  rewrite Hn, Hflag.
  assert ((n <? B) = false) as -> by (apply Nat.ltb_ge; lia).
  assert ((BatchSampler.index_in_epoch s + B <=? n) = false) as ->
    by (apply Nat.leb_gt; lia).
  destruct (shuffle _ g). by split.
Qed.

Lemma draw_batches_history n k self b g batches self' g' :
  sampler_ok n (PINOData.batch_sampler self) ->
  draw_batches k self (Some (S b)) g = (Ok batches, self', g') ->
  sampler_ok n (PINOData.batch_sampler self')
  /\ Forall (fun inds => length inds = S b) batches /\ length batches = k
  /\ exists prev,
       Forall (fun o => o ≡ₚ seq 0 n) prev
       /\ length prev
          = BatchSampler.epochs_completed (PINOData.batch_sampler self')
            - BatchSampler.epochs_completed (PINOData.batch_sampler self)
       /\ BatchSampler.epochs_completed (PINOData.batch_sampler self)
          <= BatchSampler.epochs_completed (PINOData.batch_sampler self')
       /\ take (BatchSampler.index_in_epoch (PINOData.batch_sampler self))
               (BatchSampler.indices (PINOData.batch_sampler self))
            ++ concat batches
          = concat prev
            ++ take (BatchSampler.index_in_epoch (PINOData.batch_sampler self'))
                    (BatchSampler.indices (PINOData.batch_sampler self')).
Proof.
  revert self g batches. induction k as [|k IH]; intros self g batches Hok Hd.
  - injection Hd as <- <- <-.
    split; [done|]. split; [constructor|]. split; [done|].
    exists []. split; [constructor|]. split; [simpl; lia|]. split; [lia|].
    simpl. by rewrite app_nil_r.
  - cbn [draw_batches] in Hd.
    destruct (PINOData.train_next_batch self (Some (S b)) true g)
      as [[[batch|e] s1] g1] eqn:Ht; [|discriminate].
    destruct (draw_batches k s1 (Some (S b)) g1) as [[rs s2] g2] eqn:Hr.
    destruct rs as [rest|e]; [|discriminate].
    cbn [fmap res_fmap] in Hd. injection Hd as <- <- <-.
    apply train_next_batch_inv in Ht as (inds & g1' & Hget & Hinds).
    rewrite Hinds. cbn [default from_option id].
    destruct (get_next_history n _ _ _ _ _ _ Hok Hget)
      as (Hok1 & Hlen & prev1 & Hp1 & Hl1 & Hle1 & Hh1).
    destruct (IH s1 g1 rest Hok1 Hr)
      as (Hok2 & Hall & Hk & prev2 & Hp2 & Hl2 & Hle2 & Hh2).
    split; [done|]. split; [by constructor|]. split; [simpl; lia|].
    exists (prev1 ++ prev2).
    split; [by apply Forall_app|]. split; [rewrite length_app; lia|].
    split; [lia|].
    cbn [concat]. unfold Datatypes.id. rewrite app_assoc, Hh1, <- app_assoc, Hh2.
    by rewrite concat_app, app_assoc.
Qed.

Lemma draw_batches_within_epoch n k self b g batches self' g' :
  sampler_ok n (PINOData.batch_sampler self) ->
  BatchSampler.index_in_epoch (PINOData.batch_sampler self) + k * S b <= n ->
  draw_batches k self (Some (S b)) g = (Ok batches, self', g') ->
  BatchSampler.indices (PINOData.batch_sampler self')
  = BatchSampler.indices (PINOData.batch_sampler self)
  /\ BatchSampler.epochs_completed (PINOData.batch_sampler self')
     = BatchSampler.epochs_completed (PINOData.batch_sampler self)
  /\ BatchSampler.index_in_epoch (PINOData.batch_sampler self')
     = BatchSampler.index_in_epoch (PINOData.batch_sampler self) + k * S b.
Proof.
  revert self g batches. induction k as [|k IH]; intros self g batches Hok Hfit Hd.
  - injection Hd as <- <- <-. repeat split; lia.
  - cbn [draw_batches] in Hd.
    destruct (PINOData.train_next_batch self (Some (S b)) true g)
      as [[[batch|e] s1] g1] eqn:Ht; [|discriminate].
    destruct (draw_batches k s1 (Some (S b)) g1) as [[rs s2] g2] eqn:Hr.
    destruct rs as [rest|e]; [|discriminate].
    cbn [fmap res_fmap] in Hd. injection Hd as <- <- <-.
    apply train_next_batch_inv in Ht as (inds & g1' & Hget & _).
    pose proof (get_next_history n _ _ _ _ _ _ Hok Hget) as (Hok1 & _).
    rewrite (get_next_within_epoch n) in Hget by (try done; lia).
    injection Hget as _ Hs1 _.
    destruct (IH s1 g1 rest Hok1) as (Hi & He & Hc); [|done|].
    + rewrite <- Hs1. cbn. lia.
    + rewrite Hi, He, Hc, <- Hs1. cbn. repeat split; lia.
Qed.

(** C5.  Let the sampler be in a consistent state over [n] patients, and
    let [k] calls [train_next_batch(B, return_inds=True)] with a positive
    batch size B = [S b] return the index lists [batches].  Then every call
    returned exactly B indices; the indices drawn, in the order drawn,
    continue the current ordering from the cursor and go on through the
    orderings of the following epochs, each a permutation of the indices
    below [n], so no index of an epoch is skipped or drawn twice; as long as
    the calls stay within the current epoch the ordering is not reshuffled
    and the indices drawn are pairwise distinct, and when they use up an
    epoch begun at cursor 0 they are a permutation of all indices; a call
    that finds fewer than B indices left reshuffles the ordering and counts
    the epoch as completed; and a call hands back the drawn indices exactly
    when [return_inds] is set. *)
Theorem train_next_batch_epoch_sampling
    (n k b : nat) (self self' : PINOData.t) (g g' : RandomState)
    (batches : list (list nat)) :
  sampler_ok n (PINOData.batch_sampler self) ->
  draw_batches k self (Some (S b)) g = (Ok batches, self', g') ->
  (length batches = k /\ Forall (fun inds => length inds = S b) batches)
  /\ (exists prev,
        Forall (fun o => o ≡ₚ seq 0 n) prev
        /\ BatchSampler.indices (PINOData.batch_sampler self') ≡ₚ seq 0 n
        /\ length prev
           = BatchSampler.epochs_completed (PINOData.batch_sampler self')
             - BatchSampler.epochs_completed (PINOData.batch_sampler self)
        /\ take (BatchSampler.index_in_epoch (PINOData.batch_sampler self))
                (BatchSampler.indices (PINOData.batch_sampler self))
             ++ concat batches
           = concat prev
             ++ take (BatchSampler.index_in_epoch (PINOData.batch_sampler self'))
                     (BatchSampler.indices (PINOData.batch_sampler self')))
  /\ (BatchSampler.index_in_epoch (PINOData.batch_sampler self) + k * S b <= n ->
      BatchSampler.indices (PINOData.batch_sampler self')
      = BatchSampler.indices (PINOData.batch_sampler self)
      /\ BatchSampler.epochs_completed (PINOData.batch_sampler self')
         = BatchSampler.epochs_completed (PINOData.batch_sampler self)
      /\ concat batches
         = take (k * S b)
             (drop (BatchSampler.index_in_epoch (PINOData.batch_sampler self))
                   (BatchSampler.indices (PINOData.batch_sampler self)))
      /\ NoDup (concat batches)
      /\ (BatchSampler.index_in_epoch (PINOData.batch_sampler self) = 0 ->
          k * S b = n -> concat batches ≡ₚ seq 0 n))
  /\ (S b <= n ->
      n < BatchSampler.index_in_epoch (PINOData.batch_sampler self) + S b ->
      BatchSampler.shuffle_flag (PINOData.batch_sampler self) = true ->
      forall ret,
        BatchSampler.indices (PINOData.batch_sampler
          (PINOData.train_next_batch self (Some (S b)) ret g).1.2)
        = (shuffle (BatchSampler.indices (PINOData.batch_sampler self)) g).1
        /\ BatchSampler.epochs_completed (PINOData.batch_sampler
             (PINOData.train_next_batch self (Some (S b)) ret g).1.2)
           = S (BatchSampler.epochs_completed (PINOData.batch_sampler self)))
  /\ (forall ret batch s1 g1,
        PINOData.train_next_batch self (Some (S b)) ret g = (Ok batch, s1, g1) ->
        exists inds g2,
          BatchSampler.get_next (PINOData.batch_sampler self) (S b) g
          = (Ok inds, PINOData.batch_sampler s1, g2)
          /\ b_inds batch = if ret then Some inds else None).
Proof.
  intros Hok Hd.
  destruct (draw_batches_history n k self b g batches self' g' Hok Hd)
    as (Hok' & Hall & Hk & prev & Hprev & Hlen & Hle & Hh).
  split; [by split|]. split.
  { exists prev. destruct Hok' as (_ & Hp' & _). by repeat split. }
  split.
  { intros Hfit.
    destruct (draw_batches_within_epoch n k self b g batches self' g' Hok Hfit Hd)
      as (Hi & He & Hc).
    assert (prev = []) as -> by (apply length_zero_iff_nil; lia).
    rewrite Hi, Hc in Hh. simpl in Hh. rewrite <- take_take_drop in Hh.
    apply app_inv_head in Hh.
    assert (NoDup (BatchSampler.indices (PINOData.batch_sampler self))) as Hnd.
    { destruct Hok as (_ & Hp & _). rewrite Hp. apply NoDup_seq. }
    split; [done|]. split; [done|]. split; [done|]. split.
    - rewrite Hh. eapply sublist_NoDup; [exact Hnd|].
      etransitivity; [apply sublist_take|apply sublist_drop].
    - intros Hc0 Hkn. rewrite Hh, Hc0, Hkn, drop_0.
      destruct Hok as (_ & Hp & _).
      assert (length (BatchSampler.indices (PINOData.batch_sampler self)) = n)
        as Hlen' by (by rewrite Hp, length_seq).
      rewrite take_ge by lia. exact Hp. }
  split.
  { intros HB Hex Hflag ret. rewrite train_next_batch_sampler.
    by apply (get_next_exhausted n). }
  intros ret batch s1 g1 Ht. by apply train_next_batch_inv in Ht.
Qed.

(** * The theorems on the example inputs *)

Lemma ex_pde_loss_zero_tangent (t : Tensor Dual) :
  zero_tangent t -> tangent (ex_pde_loss t) = 0%R.
Proof.
  unfold zero_tangent, ex_pde_loss.
  induction 1 as [|e l He _ IH]; [reflexivity|].
  simpl in IH |- *. rewrite He, IH. ring.
Qed.

Lemma ex_patient_coregistered (v : R) : coregistered (ex_patient v) [1; 1; 1].
Proof.
  intros key xa H. unfold ex_patient in H. cbn [arrays] in H.
  apply elem_of_list_to_map_2 in H.
  repeat (apply elem_of_cons in H as [H|H];
          [injection H as -> ->; split; reflexivity|]).
  by apply not_elem_of_nil in H.
Qed.

Lemma PINOData_init_sampler cohort pde patch_size batch_size device g :
  PINOData.batch_sampler
    (PINOData.init cohort pde patch_size batch_size device g).1
  = (BatchSampler.init (length cohort) true g).1.
Proof.
  unfold PINOData.init. by destruct (BatchSampler.init _ _ _).
Qed.

Lemma laplacian_second_partials_witness :
  exists v, laplacian ex_hessian ex_u ex_x 1 = Ok v
    /\ shape v = [1; 3] /\ wf_tensor v
    /\ forall n m, n < 1 -> m < 3 ->
         at2 0%R v n m
         = Rsum (map (fun j => at2 0%R (mkTensor [1; 1] [1%R] true) n 0)
                     (seq 1 (4 - 1))).
Proof.
  apply (laplacian_second_partials ex_hessian ex_u ex_x 1 3 4 1
           (fun _ _ => mkTensor [1; 1] [1%R] true));
    [reflexivity|reflexivity|lia|lia|].
  intros m Hm j Hj. repeat split.
Defined.

Lemma WaveEquation_call_residual_witness :
  exists r, WaveEquation_call ex_hessian (WaveEquation_init true None None)
              ex_x ex_outputs = Ok r
    /\ shape r = [1; 3] /\ wf_tensor r
    /\ forall n m, n < 1 -> m < 3 ->
         at2 0%R r n m
         = (at2 0 ex_outputs n 3 * at2 0 ex_lap n m
            + default 1000 None * (2 * PI * at2 0 ex_x n 0) ^ 2
              * at2 0 ex_outputs n m)%R.
Proof.
  eapply (WaveEquation_call_residual ex_hessian true None None
            ex_x ex_outputs _ _ 1); reflexivity.
Defined.

Lemma WaveEquation_detach_gradient_witness :
  exists r, WaveEquation_call ex_hessian_dual (ex_wave_equation false)
              ex_x_dual ex_outputs_dual = Ok r
    /\ (forall n m, n < 1 -> m < 3 ->
          tangent (at2 dual_zero r n m)
          = if detach (ex_wave_equation false) then 0%R
            else (primal (at2 dual_zero ex_outputs_dual n 3)
                  * tangent (at2 dual_zero ex_lap_dual n m)
                  + rho (ex_wave_equation false)
                    * (2 * PI * primal (at2 dual_zero ex_x_dual n 0)) ^ 2
                    * tangent (at2 dual_zero ex_outputs_dual n m))%R)
    /\ (detach (ex_wave_equation false) = true ->
        tangent (ex_pde_loss r) = 0%R).
Proof.
  eapply (WaveEquation_detach_gradient ex_hessian_dual (ex_wave_equation false)
            ex_x_dual ex_outputs_dual _ ex_lap_dual 1 ex_pde_loss);
    try reflexivity.
  - intros n Hn. destruct n; [reflexivity|lia].
  - intros n Hn. destruct n; [reflexivity|lia].
  - exact ex_pde_loss_zero_tangent.
Defined.

Lemma get_tensors_without_patch_witness :
  exists target,
    PINOData.get_tensors ex_data 0 None ex_rng
    = (Ok ([torch_tensor (expand_last (values (ex_xarray 1)))
              (PINOData.device ex_data);
            torch_tensor (np_scale (points (ex_xarray 1)) (/ 1000))
              (PINOData.device ex_data)],
           target, []), ex_rng)
    /\ torch_cat_last
         [torch_tensor (expand_last (values (ex_xarray 1)))
            (PINOData.device ex_data);
          torch_tensor (expand_last (values (ex_xarray 3)))
            (PINOData.device ex_data);
          torch_tensor (expand_last (values (ex_xarray 1)))
            (PINOData.device ex_data)]
       = Ok target
    /\ shape target = [1; 1; 1] ++ [3]
    /\ forall i, i < numel [1; 1; 1] ->
         data target !! (i * 3) = a_data (values (ex_xarray 1)) !! i
         /\ data target !! (i * 3 + 1) = a_data (values (ex_xarray 3)) !! i
         /\ data target !! (i * 3 + 2) = a_data (values (ex_xarray 1)) !! i.
Proof.
  apply (get_tensors_without_patch ex_data 0 (ex_patient 1) [1; 1; 1]
           (ex_xarray 1) (ex_xarray 1) (ex_xarray 1) (ex_xarray 1)
           (ex_xarray 1) (ex_xarray 3) (ex_xarray 1) ex_rng);
    try reflexivity.
  apply ex_patient_coregistered.
Defined.

Lemma losses_ordered_triple_witness :
  PINOData.losses ex_data ex_targets [ex_a; ex_a] ex_loss_fn [ex_a; ex_coords]
    tt (@None unit)
  = Ok [(PINOData.mask_level ex_data * 7)%R;
        (PINOData.mask_level ex_data * 7)%R;
        (PINOData.mask_level ex_data * 7)%R].
Proof.
  apply (losses_ordered_triple ex_data ex_targets ex_a ex_coords ex_a ex_a
           ex_a [] [1] ex_loss_fn tt None); reflexivity.
Defined.

Lemma mask_level_always_one_witness :
  PINOData.mask_level ex_data = 1%R
  /\ forall (L Model Aux : Type) targets outputs
       (loss_fn : @pyval R -> Tensor R -> Tensor R -> R -> res L)
       inputs (model : Model) (aux : option Aux),
       PINOData.losses ex_data targets outputs loss_fn inputs model aux
       = PINOData.losses ex_data targets outputs
           (fun target pred mask _ => loss_fn target pred mask 1%R)
           inputs model aux.
Proof.
  apply (mask_level_always_one ex_data).
  exact (reach_init ex_cohort ex_pde None None None ex_rng).
Defined.

Lemma predict_returns_all_witness :
  exists lu_pred,
    PINOModel.predict ex_hessian_like ex_model ex_a ex_coords
    = (Ok (ex_a, ex_a, lu_pred, ex_a, ex_a), set_requires_grad ex_coords)
    /\ requires_grad (set_requires_grad ex_coords) = true
    /\ shape (set_requires_grad ex_coords) = shape ex_coords
    /\ data (set_requires_grad ex_coords) = data ex_coords.
Proof.
  eexists.
  eapply (predict_returns_all ex_hessian_like ex_model ex_a ex_coords);
    reflexivity.
Defined.

Lemma test_baseline_quotient_witness :
  exists p self' g',
    PINOModel.test_predictions ex_hessian_like ex_model ex_rng
    = (Ok p, self', g')
    /\ shape (PINOModel.Mu_pred p) = shape (PINOModel.u_pred p)
    /\ wf_tensor (PINOModel.Mu_pred p)
    /\ forall i, i < numel (shape (PINOModel.u_pred p)) ->
         nth i (data (PINOModel.Mu_pred p)) 0%R
         = (-1000 * (2 * PI * 80) ^ 2 * nth i (data (PINOModel.u_pred p)) 0
            / nth i (data (PINOModel.lu_pred p)) 0)%R.
Proof.
  do 3 eexists. split; [reflexivity|].
  eapply (test_baseline_quotient ex_hessian_like ex_model _ ex_rng);
    reflexivity.
Defined.

Lemma train_next_batch_epoch_sampling_witness :
  exists batches self' g',
    draw_batches 2 ex_data (Some 1) ex_rng = (Ok batches, self', g')
    /\ length batches = 2
    /\ Forall (fun inds => length inds = 1) batches
    /\ NoDup (concat batches)
    /\ concat batches ≡ₚ seq 0 2.
Proof.
  destruct (draw_batches 2 ex_data (Some 1) ex_rng) as [[r self'] g'] eqn:E.
  assert (exists batches, r = Ok batches) as [batches ->].
  { pose proof E as E2. vm_compute in E2. injection E2 as <- _ _.
    eexists; reflexivity. }
  exists batches, self', g'. split; [reflexivity|].
  destruct (train_next_batch_epoch_sampling 2 2 0 ex_data self' ex_rng g'
              batches)
    as ((Hk & Hall) & _ & Hepoch & _).
  - unfold ex_data. rewrite PINOData_init_sampler.
    apply (BatchSampler_init_ok 2 true ex_rng).
  - exact E.
  - destruct Hepoch as (_ & _ & _ & Hnd & Hperm); [vm_compute; lia|].
    split; [exact Hk|]. split; [exact Hall|]. split; [exact Hnd|].
    apply Hperm; reflexivity.
Defined.


(** * Further facts *)

Lemma for_each_const {A B} (y : B) (xs : list A) :
  for_each (fun _ => Ok y) xs = Ok (replicate (length xs) y).
Proof.
  induction xs as [|x xs IH]; [reflexivity|].
  cbn [for_each mbind res_bind]. rewrite IH. reflexivity.
Qed.

(** X1.  With no input dimension left to differentiate ([K <= dim]) the
    inner loop of [laplacian] does not run, every accumulator is still the Python
    integer 0, and the concatenation raises. *)
Lemma laplacian_empty_range
    (hessian : Tensor R -> Tensor R -> option nat -> nat -> nat -> res (Tensor R))
    (u x : Tensor R) (N M K dim : nat) :
  shape u = [N; S M] -> shape x = [N; K] -> K <= dim ->
  laplacian hessian u x dim = Raise TypeError.
Proof.
  intros Hu Hx Hdim. unfold laplacian, shape_at. rewrite Hu, Hx.
  cbn [lookup list_lookup mbind res_bind].
  replace (K - dim) with 0 by lia. cbn [seq laplacian_sum].
  rewrite (for_each_const (@PyNum R 0)). reflexivity.
Qed.

(** On the example inputs the flag decides whether the residual carries a
    derivative with respect to the displacement parameter. *)
Example detach_cleared_gradient_nonzero :
  exists r, WaveEquation_call ex_hessian_dual (ex_wave_equation false)
              ex_x_dual ex_outputs_dual = Ok r
    /\ tangent (at2 dual_zero r 0 0) <> 0%R.
Proof.
  eexists. split; [reflexivity|].
  lazy -[Rplus Rmult Rminus Ropp Rdiv Rinv IZR INR PI pow].
  pose proof PI_RGT_0. simpl. nra.
Qed.

Example detach_set_gradient_zero :
  exists r, WaveEquation_call ex_hessian_dual (ex_wave_equation true)
              ex_x_dual ex_outputs_dual = Ok r
    /\ tangent (at2 dual_zero r 0 0) = 0%R.
Proof.
  eexists. split; [reflexivity|].
  lazy -[Rplus Rmult Rminus Ropp Rdiv Rinv IZR INR PI pow]. ring.
Qed.

(** Channel [k] of a tensor with three channels holds entry [k] of every
    cell, so the split in [losses] undoes the concatenation in
    [get_tensors]. *)
Lemma channel_lookup {T} (t : Tensor T) (lead : list nat) (k i : nat) :
  shape t = lead ++ [3] -> wf_tensor t -> k < 3 -> i < numel lead ->
  shape (channel k t) = lead ++ [1]
  /\ data (channel k t) !! i = data t !! (i * 3 + k).
Proof.
  intros Hs Hw Hk Hi. unfold channel, wf_tensor in *.
  rewrite Hs, last_last, length_app in *. cbn [length] in *.
  replace (length lead + 1 - 1) with (length lead) by lia.
  rewrite take_app_length. cbn [shape data]. split.
  - do 2 f_equal. lia.
  - rewrite numel_app in Hw. simpl in Hw.
    replace i with (i * 1 + 0) at 1 by lia.
    rewrite (lookup_slice_rows (numel lead) 3 k 1) by lia.
    f_equal. lia.
Qed.

(** * More of [pde.py] *)

(** X2.  Outputs with a single column leave no displacement column: the
    slice [outputs[:, :-1]] is empty, [laplacian] collects no component and
    the concatenation of the empty list raises. *)
Theorem WaveEquation_call_single_column {T} `{Scalar T}
    (hessian : Tensor T -> Tensor T -> option nat -> nat -> nat -> res (Tensor T))
    (self : WaveEquation) (x outputs : Tensor T)
    (N d0 d1 : nat) (rest rest' : list nat) :
  shape outputs = N :: 1 :: rest ->
  shape x = d0 :: d1 :: rest' ->
  WaveEquation_call hessian self x outputs = Raise RuntimeError.
Proof.
  intros Ho Hx. unfold WaveEquation_call, slice_axis1. rewrite Ho, Hx.
  change (py_slice None (Some (-1)%Z) 1) with (0, 0).
  change (py_slice (Some (-1)%Z) None 1) with (0, 1).
  destruct (py_slice None (Some 1%Z) d1) as [b len].
  cbn [mbind res_bind]. unfold laplacian, shape_at. cbn [shape].
  reflexivity.
Qed.

(** X3.  An error of the differentiation primitive at the first second
    partial that [laplacian] asks for is the error of [laplacian]. *)
Theorem laplacian_propagates_error {T} `{Scalar T}
    (hessian : Tensor T -> Tensor T -> option nat -> nat -> nat -> res (Tensor T))
    (u x : Tensor T) (N M d0 K dim : nat) (ru rx : list nat) (e : exn) :
  shape u = N :: S M :: ru ->
  shape x = d0 :: K :: rx ->
  dim < K ->
  hessian u x (if 1 <? S M then Some 0 else None) dim dim = Raise e ->
  laplacian hessian u x dim = Raise e.
Proof.
  intros Hu Hx Hdim He. unfold laplacian, shape_at. rewrite Hu, Hx.
  cbn [lookup list_lookup mbind res_bind].
  destruct (K - dim) as [|k] eqn:Hk; [lia|].
  cbn [seq for_each laplacian_sum mbind res_bind]. rewrite He. reflexivity.
Qed.

(** X4.  The [detach] flag does not change the value of the residual: over
    dual numbers, the instance with the flag set and the instance with the
    flag cleared return tensors of the same shape whose entries have the
    same value (they differ in the derivative only). *)
Theorem WaveEquation_detach_same_value
    (hessian : Tensor Dual -> Tensor Dual -> option nat -> nat -> nat
               -> res (Tensor Dual))
    (rho_arg : option R) (debug_arg : option bool)
    (x outputs u lap : Tensor Dual) (N : nat) :
  shape x = [N; 4] -> wf_tensor x ->
  shape outputs = [N; 4] -> wf_tensor outputs ->
  slice_axis1 None (Some (-1)%Z) outputs = Ok u ->
  laplacian hessian u x 1 = Ok lap ->
  shape lap = [N; 3] -> wf_tensor lap ->
  exists r1 r0,
    WaveEquation_call hessian (WaveEquation_init true rho_arg debug_arg)
      x outputs = Ok r1
    /\ WaveEquation_call hessian (WaveEquation_init false rho_arg debug_arg)
         x outputs = Ok r0
    /\ shape r1 = shape r0
    /\ forall n m, n < N -> m < 3 ->
         primal (at2 dual_zero r1 n m) = primal (at2 dual_zero r0 n m).
Proof.
  intros Hx Wx Ho Wo Hu Hlap Hsl Wl.
  destruct (WaveEquation_call_entries dual_zero hessian
              (WaveEquation_init true rho_arg debug_arg) x outputs u lap N)
    as (r1 & Hr1 & Hs1 & _ & Hent1); try done.
  destruct (WaveEquation_call_entries dual_zero hessian
              (WaveEquation_init false rho_arg debug_arg) x outputs u lap N)
    as (r0 & Hr0 & Hs0 & _ & Hent0); try done.
  exists r1, r0. split; [done|]. split; [done|]. split; [congruence|].
  intros n m Hn Hm. rewrite Hent1, Hent0 by done. reflexivity.
Qed.

(** X5.  An entry of the residual is zero exactly when the traction term
    balances the body force there:
    mu_n * lap[n, m] = - rho * (2 * PI * omega_n)^2 * u[n, m]. *)
Theorem WaveEquation_call_zero_iff_balance
    (hessian : Tensor R -> Tensor R -> option nat -> nat -> nat -> res (Tensor R))
    (self : WaveEquation) (x outputs u lap : Tensor R) (N : nat) :
  shape x = [N; 4] -> wf_tensor x ->
  shape outputs = [N; 4] -> wf_tensor outputs ->
  slice_axis1 None (Some (-1)%Z) outputs = Ok u ->
  laplacian hessian u x 1 = Ok lap ->
  shape lap = [N; 3] -> wf_tensor lap ->
  exists r, WaveEquation_call hessian self x outputs = Ok r
    /\ forall n m, n < N -> m < 3 ->
         (at2 0%R r n m = 0%R
          <-> (at2 0 outputs n 3 * at2 0 lap n m
               = - (rho self * (2 * PI * at2 0 x n 0) ^ 2 * at2 0 outputs n m))%R).
Proof.
  intros Hx Wx Ho Wo Hu Hlap Hsl Wl.
  destruct (WaveEquation_call_entries 0%R hessian self x outputs u lap N)
    as (r & Hr & _ & _ & Hent); try done.
  exists r. split; [done|]. intros n m Hn Hm. rewrite Hent by done.
  unfold maybe_detach.
  replace (if detach self then s_detach (at2 0%R lap n m) else at2 0%R lap n m)
    with (at2 0%R lap n m) by (by destruct (detach self)).
  replace (if detach self then s_detach (at2 0%R outputs n m)
           else at2 0%R outputs n m)
    with (at2 0%R outputs n m) by (by destruct (detach self)).
  cbn [s_add s_mul s_const s_pow R_scalar]. split; intros E; lra.
Qed.

Section ResidualFormFacts.
Context {T : Type} `{Scalar T}.
Variable hessian :
  Tensor T -> Tensor T -> option nat -> nat -> nat -> res (Tensor T).
Variable jacobian : Tensor T -> Tensor T -> res (Tensor T).
Variable transpose : Tensor T -> res (Tensor T).
Variable trace_impl : Tensor T -> res (@pyval T).
Variable identity_impl : res (@pyval T).
Variable divergence_impl : @pyval T -> Tensor T -> res (@pyval T).
Variable gradient_impl : @pyval T -> Tensor T -> res (@pyval T).

Lemma use_global_trace {A} (k : res A) :
  use_global "trace" k = Raise (NameError "trace").
Proof. reflexivity. Qed.

Lemma use_global_divergence {A} (k : res A) :
  use_global "divergence" k = Raise (NameError "divergence").
Proof. reflexivity. Qed.

Lemma use_global_gradient {A} (k : res A) :
  use_global "gradient" k = Raise (NameError "gradient").
Proof. reflexivity. Qed.

(** X6.  [lvwe] never returns a residual.  Whatever [trace], [I] and
    [divergence] would compute, the module does not define them: when the
    strain and the shear stress have been computed the call raises the
    [NameError] for [trace], and otherwise it raises earlier. *)
Theorem lvwe_never_returns
    (x u : Tensor T) (mu lam rho omega : @pyval T) :
  (exists e,
     lvwe jacobian transpose trace_impl identity_impl divergence_impl
       x u mu lam rho omega = Raise e)
  /\ forall jac_u jac_u_T sym two_mu shear,
       jacobian u x = Ok jac_u ->
       transpose jac_u = Ok jac_u_T ->
       tadd jac_u jac_u_T = Ok sym ->
       py_mul (PyNum 2) mu = Ok two_mu ->
       py_mul two_mu (PyTensor (tscale (1 / 2) sym)) = Ok shear ->
       lvwe jacobian transpose trace_impl identity_impl divergence_impl
         x u mu lam rho omega = Raise (NameError "trace").
Proof.
  unfold lvwe. split.
  - destruct (jacobian u x) as [j|e]; [|by eexists]. cbn [mbind res_bind].
    destruct (transpose j) as [jt|e]; [|by eexists]. cbn [mbind res_bind].
    destruct (tadd j jt) as [s|e]; [|by eexists]. cbn [mbind res_bind].
    destruct (py_mul (PyNum 2) mu) as [m|e]; [|by eexists]. cbn [mbind res_bind].
    destruct (py_mul m _) as [sh|e]; [|by eexists]. cbn [mbind res_bind].
    rewrite use_global_trace. by eexists.
  - intros j jt s m sh -> Ht. cbn [mbind res_bind]. rewrite Ht.
    intros Hs. cbn [mbind res_bind]. rewrite Hs. intros Hm.
    cbn [mbind res_bind]. rewrite Hm. intros Hsh. cbn [mbind res_bind].
    rewrite Hsh. reflexivity.
Qed.

(** X7.  [homogeneous_lvwe] never returns a residual: once the Laplacian is
    computed, the call of the undefined [divergence] raises [NameError]. *)
Theorem homogeneous_lvwe_never_returns
    (x u : Tensor T) (mu lam rho omega : @pyval T) :
  (exists e,
     homogeneous_lvwe hessian divergence_impl gradient_impl
       x u mu lam rho omega = Raise e)
  /\ forall laplace_u,
       laplacian hessian u x 0 = Ok laplace_u ->
       homogeneous_lvwe hessian divergence_impl gradient_impl
         x u mu lam rho omega = Raise (NameError "divergence").
Proof.
  unfold homogeneous_lvwe. split.
  - destruct (laplacian hessian u x 0) as [l|e]; [|by eexists].
    cbn [mbind res_bind]. rewrite use_global_divergence. by eexists.
  - intros l ->. reflexivity.
Qed.

(** X8.  [pressure_homogeneous_lvwe] never returns a residual: once the
    Laplacian is computed, the call of the undefined [gradient] raises
    [NameError]. *)
Theorem pressure_homogeneous_lvwe_never_returns
    (x u : Tensor T) (mu p rho omega : @pyval T) :
  (exists e,
     pressure_homogeneous_lvwe hessian gradient_impl x u mu p rho omega
     = Raise e)
  /\ forall laplace_u,
       laplacian hessian u x 0 = Ok laplace_u ->
       pressure_homogeneous_lvwe hessian gradient_impl x u mu p rho omega
       = Raise (NameError "gradient").
Proof.
  unfold pressure_homogeneous_lvwe. split.
  - destruct (laplacian hessian u x 0) as [l|e]; [|by eexists].
    cbn [mbind res_bind]. rewrite use_global_gradient. by eexists.
  - intros l ->. reflexivity.
Qed.
End ResidualFormFacts.

(** X9.  With a constant modulus, density and angular frequency (Python
    numbers), [incompressible_homogeneous_lvwe] returns the tensor of the
    shape of [u] whose entry [i] is
    mu * lap[i] + rho * omega^2 * u[i], where [lap] is the Laplacian of [u]
    over all input dimensions. *)
Theorem incompressible_homogeneous_lvwe_entries
    (hessian : Tensor R -> Tensor R -> option nat -> nat -> nat -> res (Tensor R))
    (x u lap : Tensor R) (mu rho omega : R) :
  laplacian hessian u x 0 = Ok lap ->
  shape lap = shape u -> wf_tensor u -> wf_tensor lap ->
  exists r,
    incompressible_homogeneous_lvwe hessian x u (PyNum mu) (PyNum rho)
      (PyNum omega) = Ok (PyTensor r)
    /\ shape r = shape u /\ wf_tensor r
    /\ forall i, i < numel (shape u) ->
         nth i (data r) 0%R
         = (mu * nth i (data lap) 0 + rho * omega ^ 2 * nth i (data u) 0)%R.
Proof.
  intros Hlap Hs Wu Wl. unfold incompressible_homogeneous_lvwe, body_force.
  rewrite Hlap. cbn [mbind res_bind py_mul py_pow py_add fmap res_fmap].
  unfold tadd. rewrite tbin_same.
  - eexists. split; [reflexivity|]. cbn [shape data tscale tmap].
    unfold wf_tensor in *. cbn [shape data].
    split; [done|]. split.
    + rewrite length_zip_with, !length_map. rewrite Hs in Wl |- *. lia.
    + intros i Hi. rewrite nth_zip_with_R
        by (rewrite length_map; rewrite ?Hs in Wl; lia).
      rewrite !nth_lookup, !list_lookup_fmap.
      destruct (lookup_lt_is_Some_2 (data lap) i) as [v ->];
        [rewrite Hs in Wl; lia|].
      destruct (lookup_lt_is_Some_2 (data u) i) as [w ->]; [lia|].
      reflexivity.
  - done.
  - unfold wf_tensor in *. cbn [shape data tscale tmap]. by rewrite length_map.
  - unfold wf_tensor in *. cbn [shape data tscale tmap]. by rewrite length_map.
Qed.

(** * More of [pino_training.py] *)

Lemma anatomy_name (k : string) : In k a_sequences -> k ∈ a_sequences.
Proof. apply list_elem_of_In. Qed.

Lemma forallb_false_or_true (sh : list nat) (a1 a2 a3 a4 : ndarray) :
  sh = a_shape a1 ->
  (bool_decide (a_shape a1 = sh)
   && (bool_decide (a_shape a2 = sh)
       && (bool_decide (a_shape a3 = sh)
           && (bool_decide (a_shape a4 = sh) && true)))) = false
  \/ (a_shape a2 = sh /\ a_shape a3 = sh /\ a_shape a4 = sh).
Proof.
  intros ->. rewrite (bool_decide_true (a_shape a1 = a_shape a1)) by done.
  destruct (decide (a_shape a2 = a_shape a1)) as [E2|N2];
    [|left; by rewrite (bool_decide_false _ N2)].
  destruct (decide (a_shape a3 = a_shape a1)) as [E3|N3];
    [|left; rewrite (bool_decide_false _ N3); by rewrite andb_false_r].
  destruct (decide (a_shape a4 = a_shape a1)) as [E4|N4];
    [|left; rewrite (bool_decide_false _ N4); by rewrite !andb_false_r].
  by right.
Qed.

(** X10.  A patient that lacks one of the four anatomical arrays cannot be
    loaded, with or without a patch size, although the anatomical stack is
    not part of what [get_tensors] returns: the call raises the [KeyError]
    of a missing anatomical name. *)
Theorem get_tensors_missing_anatomy
    (self : PINOData.t) (idx : nat) (patch_size : option nat)
    (patient : Patient) (key : string) (g : RandomState) :
  PINOData.cohort self !! idx = Some patient ->
  key ∈ a_sequences ->
  arrays patient !! key = None ->
  exists k, k ∈ a_sequences /\ arrays patient !! k = None
    /\ PINOData.get_tensors self idx patch_size g = (Raise (KeyError k), g).
Proof.
  intros Hp Hkey Hnone.
  unfold PINOData.get_tensors, mbind, Rand_bind, lift, get_patient.
  rewrite Hp. cbn [for_each a_sequences]. unfold get_array.
  destruct (arrays patient !! "t1_pre_in") as [t1|] eqn:E1;
    [|exists "t1_pre_in"; split; [apply anatomy_name; vm_compute; tauto|by split]].
  destruct (arrays patient !! "t1_pre_out") as [t2|] eqn:E2;
    [|exists "t1_pre_out"; split; [apply anatomy_name; vm_compute; tauto|by split]].
  destruct (arrays patient !! "t1_pre_water") as [t3|] eqn:E3;
    [|exists "t1_pre_water"; split; [apply anatomy_name; vm_compute; tauto|by split]].
  destruct (arrays patient !! "t1_pre_fat") as [t4|] eqn:E4;
    [|exists "t1_pre_fat"; split; [apply anatomy_name; vm_compute; tauto|by split]].
  exfalso. unfold a_sequences in Hkey.
  repeat (apply elem_of_cons in Hkey as [->|Hkey]; [congruence|]).
  by apply not_elem_of_nil in Hkey.
Qed.

(** X11.  Anatomical arrays that do not all have the shape of the first one
    cannot be stacked: [get_tensors] raises [ValueError], although the
    stack is not part of what it returns. *)
Theorem get_tensors_anatomy_shape_mismatch
    (self : PINOData.t) (idx : nat) (patch_size : option nat)
    (patient : Patient) (t1_in t1_out t1_water t1_fat : XArray)
    (g : RandomState) :
  PINOData.cohort self !! idx = Some patient ->
  arrays patient !! "t1_pre_in" = Some t1_in ->
  arrays patient !! "t1_pre_out" = Some t1_out ->
  arrays patient !! "t1_pre_water" = Some t1_water ->
  arrays patient !! "t1_pre_fat" = Some t1_fat ->
  ~ (a_shape (values t1_out) = a_shape (values t1_in)
     /\ a_shape (values t1_water) = a_shape (values t1_in)
     /\ a_shape (values t1_fat) = a_shape (values t1_in)) ->
  PINOData.get_tensors self idx patch_size g = (Raise ValueError, g).
Proof.
  intros Hp H1 H2 H3 H4 Hne.
  unfold PINOData.get_tensors, mbind, Rand_bind, lift, get_patient.
  rewrite Hp. cbn [for_each a_sequences]. unfold get_array.
  rewrite H1, H2, H3, H4. cbn [fmap res_fmap mbind res_bind].
  unfold np_stack_last. cbn [forallb].
  destruct (forallb_false_or_true
              (a_shape (values t1_in)) (values t1_in) (values t1_out)
              (values t1_water) (values t1_fat) eq_refl) as [->|Hall];
    [reflexivity|].
  exfalso. apply Hne. exact Hall.
Qed.

(** X12.  [train_next_batch] changes nothing of the object but the sampler
    state: the cohort, the PDE object, the mask level, the configured batch
    and patch sizes and the device stay as they are, and so do the number of
    samples and the shuffle setting of the sampler, also when the call
    raises. *)
Theorem train_next_batch_frame
    (self : PINOData.t) (batch_size : option nat) (return_inds : bool)
    (g : RandomState) :
  PINOData.cohort (PINOData.train_next_batch self batch_size return_inds g).1.2
  = PINOData.cohort self
  /\ PINOData.pde (PINOData.train_next_batch self batch_size return_inds g).1.2
     = PINOData.pde self
  /\ PINOData.mask_level
       (PINOData.train_next_batch self batch_size return_inds g).1.2
     = PINOData.mask_level self
  /\ PINOData.batch_size
       (PINOData.train_next_batch self batch_size return_inds g).1.2
     = PINOData.batch_size self
  /\ PINOData.patch_size
       (PINOData.train_next_batch self batch_size return_inds g).1.2
     = PINOData.patch_size self
  /\ PINOData.device
       (PINOData.train_next_batch self batch_size return_inds g).1.2
     = PINOData.device self
  /\ BatchSampler.num_samples (PINOData.batch_sampler
       (PINOData.train_next_batch self batch_size return_inds g).1.2)
     = BatchSampler.num_samples (PINOData.batch_sampler self)
  /\ BatchSampler.shuffle_flag (PINOData.batch_sampler
       (PINOData.train_next_batch self batch_size return_inds g).1.2)
     = BatchSampler.shuffle_flag (PINOData.batch_sampler self).
Proof.
  unfold PINOData.train_next_batch.
  destruct (match batch_size with
            | Some (S b) => Some (S b)
            | _ => PINOData.batch_size self
            end) as [B|]; [|by repeat split].
  assert (BatchSampler.num_samples
            (BatchSampler.get_next (PINOData.batch_sampler self) B g).1.2
          = BatchSampler.num_samples (PINOData.batch_sampler self)
          /\ BatchSampler.shuffle_flag
               (BatchSampler.get_next (PINOData.batch_sampler self) B g).1.2
             = BatchSampler.shuffle_flag (PINOData.batch_sampler self))
    as Hs.
  { unfold BatchSampler.get_next.
    destruct (_ <? B); [by split|]. destruct (_ <=? _); [by split|].
    destruct (if BatchSampler.shuffle_flag _ then _ else _). by split. }
  destruct (BatchSampler.get_next _ _ _) as [[[inds|e] sampler] g'];
    cbn [fst snd] in Hs; destruct Hs as [Hn Hf].
  - destruct (PINOData.collate _ _ _ _). by repeat split.
  - by repeat split.
Qed.

Lemma rand_bind_Raise {A B} (m : Rand A) (f : A -> Rand B) g e g' :
  m g = (Raise e, g') -> (m ≫= f) g = (Raise e, g').
Proof. intros Hm. unfold mbind, Rand_bind. by rewrite Hm. Qed.

Lemma collate_patch_raises self P inds ret g :
  PINOData.patch_size self = Some P ->
  exists e g', PINOData.collate self inds ret g = (Raise e, g').
Proof.
  intros HP. unfold PINOData.collate. rewrite HP.
  destruct inds as [|i inds].
  - by eexists _, _.
  - destruct (get_tensors_patch_never_returns self i P g) as [e He].
    exists e, g. apply rand_bind_Raise. cbn [for_each_rand].
    by apply rand_bind_Raise.
Qed.

(** X13.  An object configured with a patch size never yields a batch:
    whatever the batch size and the generator state, [train_next_batch]
    (and with it [test]) raises. *)
Theorem train_next_batch_patch_never_returns
    (self : PINOData.t) (P : nat) (batch_size : option nat)
    (return_inds : bool) (g : RandomState) :
  PINOData.patch_size self = Some P ->
  (exists e,
     (PINOData.train_next_batch self batch_size return_inds g).1.1 = Raise e)
  /\ exists e, (PINOData.test self return_inds g).1.1 = Raise e.
Proof.
  intros HP.
  assert (forall bs, exists e,
            (PINOData.train_next_batch self bs return_inds g).1.1 = Raise e)
    as Hall.
  { intros bs. unfold PINOData.train_next_batch.
    destruct (match bs with
              | Some (S b) => Some (S b)
              | _ => PINOData.batch_size self
              end) as [B|]; [|by eexists].
    destruct (BatchSampler.get_next _ _ _) as [[[inds|e] sampler] g'];
      [|by eexists].
    edestruct (collate_patch_raises
                 (PINOData.mk (PINOData.cohort self) (PINOData.pde self)
                    (PINOData.mask_level self) sampler
                    (PINOData.batch_size self) (PINOData.patch_size self)
                    (PINOData.device self)) P inds return_inds g')
      as (e & g'' & ->); [exact HP|]. by eexists. }
  split; [apply Hall|]. unfold PINOData.test. apply Hall.
Qed.

(** X16.  [losses] does not look at the anatomical input [a], at the model,
    at the auxiliary variables or at outputs beyond the first two: the
    result is the same whatever they are. *)
Theorem losses_ignores_unused {L Model Model' Aux Aux' : Type}
    (self : PINOData.t) (targets a a' x u_pred mu_pred : Tensor R)
    (rest rest' : list (Tensor R))
    (loss_fn : @pyval R -> Tensor R -> Tensor R -> R -> res L)
    (model : Model) (model' : Model') (aux : option Aux) (aux' : option Aux') :
  PINOData.losses self targets (u_pred :: mu_pred :: rest) loss_fn [a; x]
    model aux
  = PINOData.losses self targets (u_pred :: mu_pred :: rest') loss_fn [a'; x]
      model' aux'.
Proof. reflexivity. Qed.

Lemma unpack3_length {A} (l : list A) :
  length l <> 3 -> unpack3 l = Raise ValueError.
Proof. destruct l as [|a [|b [|c [|d l]]]]; simpl; (reflexivity || lia). Qed.

(** X17.  Targets whose last axis does not have extent 3 are rejected:
    [losses] raises [ValueError] before the loss function or the PDE object
    is consulted, whatever the other arguments. *)
Theorem losses_rejects_channel_count {L Model Aux : Type}
    (self : PINOData.t) (targets : Tensor R) (lead : list nat) (C : nat)
    (outputs inputs : list (Tensor R))
    (loss_fn : @pyval R -> Tensor R -> Tensor R -> R -> res L)
    (model : Model) (aux : option Aux) :
  shape targets = lead ++ [C] -> C <> 3 ->
  PINOData.losses self targets outputs loss_fn inputs model aux
  = Raise ValueError.
Proof.
  intros Hs HC. unfold PINOData.losses.
  destruct (unpack2 inputs) as [[a x]|e] eqn:Hin.
  - cbn [mbind res_bind]. unfold torch_split_last. rewrite Hs, last_last.
    destruct (lead ++ [C]) eqn:E; [by destruct lead|].
    cbn [mbind res_bind]. rewrite unpack3_length; [reflexivity|].
    rewrite length_map, length_seq. lia.
  - cbn [mbind res_bind].
    destruct inputs as [|? [|? [|? ?]]]; simpl in Hin; congruence.
Qed.

(** ** Batches that load *)










Lemma get_next_ok (n : nat) (s : BatchSampler.t) (B : nat) (g : RandomState) :
  sampler_ok n s -> B <= n ->
  exists inds s' g',
    BatchSampler.get_next s B g = (Ok inds, s', g')
    /\ length inds = B /\ Forall (fun i => i < n) inds.
Proof.
  intros (Hn & Hp & Hc) HB.
  assert (length (BatchSampler.indices s) = n) as Hlen
    by (by rewrite Hp, length_seq).
  assert (forall l : list nat, l ≡ₚ seq 0 n -> Forall (fun i => i < n) l)
    as Hvalid.
  { intros l Hl. apply Forall_forall. intros i Hi. rewrite Hl in Hi.
    apply elem_of_seq in Hi. lia. }
  unfold BatchSampler.get_next. rewrite Hn.
  assert ((n <? B) = false) as -> by (apply Nat.ltb_ge; lia).
  destruct (BatchSampler.index_in_epoch s + B <=? n) eqn:Hfit.
  - apply Nat.leb_le in Hfit. eexists _, _, _. split; [reflexivity|]. split.
    + rewrite length_take, length_drop. lia.
    + apply Forall_take, Forall_drop. by apply Hvalid.
  - apply Nat.leb_gt in Hfit.
    assert (exists ind g1,
              (if BatchSampler.shuffle_flag s
               then shuffle (BatchSampler.indices s) g
               else (BatchSampler.indices s, g)) = (ind, g1)
              /\ ind ≡ₚ seq 0 n) as (ind & g1 & -> & Hind).
    { destruct (BatchSampler.shuffle_flag s).
      - pose proof (shuffle_perm (BatchSampler.indices s) g) as Hs.
        destruct (shuffle _ g) as [ind g1]. exists ind, g1. simpl in Hs.
        split; [done|]. by rewrite Hs.
      - by exists (BatchSampler.indices s), g. }
    assert (length ind = n) as Hlen' by (by rewrite Hind, length_seq).
    eexists _, _, _. split; [reflexivity|]. split.
    + rewrite length_app, !length_take, length_drop. lia.
    + apply Forall_app. split.
      * apply Forall_take, Forall_drop. by apply Hvalid.
      * apply Forall_take. by apply Hvalid.
Qed.


(** ** Indices and the sampler in reachable states *)

Lemma get_next_valid (n : nat) (s s' : BatchSampler.t) (B : nat)
    (g g' : RandomState) (inds : list nat) :
  sampler_ok n s ->
  BatchSampler.get_next s B g = (Ok inds, s', g') ->
  length inds = B /\ Forall (fun i => i < n) inds.
Proof.
  intros Hok Hget.
  assert (B <= n) as HB.
  { destruct Hok as (Hn & _ & _). unfold BatchSampler.get_next in Hget.
    rewrite Hn in Hget. destruct (n <? B) eqn:E; [discriminate|].
    by apply Nat.ltb_ge in E. }
  destruct (get_next_ok n s B g Hok HB) as (inds0 & s0 & g0 & H0 & Hl & Hv).
  rewrite Hget in H0. by injection H0 as <- _ _.
Qed.

Lemma get_next_preserves (n : nat) (s : BatchSampler.t) (B : nat)
    (g : RandomState) :
  sampler_ok n s -> sampler_ok n (BatchSampler.get_next s B g).1.2.
Proof.
  intros Hok.
  destruct (BatchSampler.get_next s B g) as [[[inds|e] s'] g'] eqn:Hget.
  - by destruct (get_next_history n s B g inds s' g' Hok Hget).
  - unfold BatchSampler.get_next in Hget.
    destruct (_ <? B); [by injection Hget as _ <- _|].
    destruct (_ <=? _); [discriminate|].
    by destruct (if BatchSampler.shuffle_flag s then _ else _).
Qed.

Lemma train_next_batch_sampler_ok (n : nat) (self : PINOData.t)
    (batch_size : option nat) (return_inds : bool) (g : RandomState) :
  sampler_ok n (PINOData.batch_sampler self) ->
  sampler_ok n (PINOData.batch_sampler
    (PINOData.train_next_batch self batch_size return_inds g).1.2).
Proof.
  intros Hok. unfold PINOData.train_next_batch.
  destruct (match batch_size with
            | Some (S b) => Some (S b)
            | _ => PINOData.batch_size self
            end) as [B|]; [|exact Hok].
  pose proof (get_next_preserves n _ B g Hok) as Hs.
  destruct (BatchSampler.get_next _ _ _) as [[[inds|e] sampler] g'];
    cbn [fst snd] in Hs; [|exact Hs].
  destruct (PINOData.collate _ _ _ _). exact Hs.
Qed.

Lemma test_returns_index_helper
    (self self' : PINOData.t) (g g' : RandomState) (batch : Batch) :
  sampler_ok (length (PINOData.cohort self)) (PINOData.batch_sampler self) ->
  PINOData.test self true g = (Ok batch, self', g') ->
  exists i patient,
    b_inds batch = Some [i] /\ PINOData.cohort self !! i = Some patient.
Proof.
  intros Hok Ht. unfold PINOData.test in Ht.
  apply train_next_batch_inv in Ht as (inds & g1 & Hget & Hinds).
  destruct (get_next_valid _ _ _ _ _ _ _ Hok Hget) as (Hlen & Hvalid).
  destruct inds as [|i [|j inds]]; simpl in Hlen; try lia.
  apply Forall_inv in Hvalid.
  destruct (lookup_lt_is_Some_2 (PINOData.cohort self) i Hvalid) as [p Hp].
  by exists i, p.
Qed.

Lemma train_next_batch_cohort
    (self : PINOData.t) (batch_size : option nat) (return_inds : bool)
    (g : RandomState) :
  PINOData.cohort (PINOData.train_next_batch self batch_size return_inds g).1.2
  = PINOData.cohort self.
Proof.
  unfold PINOData.train_next_batch.
  destruct (match batch_size with
            | Some (S b) => Some (S b)
            | _ => PINOData.batch_size self
            end) as [B|]; [|reflexivity].
  destruct (BatchSampler.get_next _ _ _) as [[[inds|e] sampler] g'];
    [|reflexivity].
  destruct (PINOData.collate _ _ _ _). reflexivity.
Qed.

(** X15.  When [test] returns, it returns a batch of one patient: the index
    list handed back has exactly one element, and that element is an index
    of the cohort, so that the ground truth of [cohort[inds[0]]] can be
    looked up. *)
Theorem test_returns_one_valid_index
    (self self' : PINOData.t) (g g' : RandomState) (batch : Batch) :
  sampler_ok (length (PINOData.cohort self)) (PINOData.batch_sampler self) ->
  PINOData.test self true g = (Ok batch, self', g') ->
  exists i patient,
    b_inds batch = Some [i] /\ PINOData.cohort self !! i = Some patient.
Proof. apply test_returns_index_helper. Qed.

(** X18.  In every state the pipeline can reach, the sampler is consistent
    with the cohort: it samples as many indices as the cohort has patients,
    its ordering is a permutation of the patient indices, and its cursor
    lies within the ordering. *)
Theorem reachable_sampler_consistent (s : PINOData.t) :
  reachable s ->
  sampler_ok (length (PINOData.cohort s)) (PINOData.batch_sampler s).
Proof.
  induction 1 as [cohort pde ps bs dev g|s B ret g _ IH|s ret g _ IH].
  - rewrite PINOData_init_sampler.
    replace (PINOData.cohort (PINOData.init cohort pde ps bs dev g).1)
      with cohort
      by (unfold PINOData.init; by destruct (BatchSampler.init _ _ _)).
    apply BatchSampler_init_ok.
  - rewrite train_next_batch_cohort.
    by apply train_next_batch_sampler_ok.
  - unfold PINOData.test. rewrite train_next_batch_cohort.
    by apply train_next_batch_sampler_ok.
Qed.

(** X19.  When [PINOModel.test] gets its predictions, it has evaluated one
    patient of the cohort, whose index it keeps; the displacement it
    reports is the first output of the network as it is, and the modulus it
    reports is the second output of the network multiplied by 100, entry by
    entry. *)
Theorem test_predictions_rescales_modulus
    (hessian : Tensor R -> Tensor R -> option nat -> nat -> nat -> res (Tensor R))
    (self self' : PINOModel.t) (g g' : RandomState)
    (p : PINOModel.Predictions) :
  sampler_ok (length (PINOData.cohort (PINOModel.data self)))
    (PINOData.batch_sampler (PINOModel.data self)) ->
  PINOModel.test_predictions hessian self g = (Ok p, self', g') ->
  exists a x mu i patient,
    forward (PINOModel.net self) (a, set_requires_grad x) true
    = Ok [PINOModel.u_pred p; mu]
    /\ shape (PINOModel.mu_pred p) = shape mu
    /\ data (PINOModel.mu_pred p) = map (fun e => (e * 100)%R) (data mu)
    /\ PINOModel.inds p = Some [i]
    /\ PINOData.cohort (PINOModel.data self) !! i = Some patient.
Proof.
  unfold PINOModel.test_predictions.
  destruct (PINOData.test _ _ _) as [[r d] g1] eqn:Htest.
  intros Hok Heq. injection Heq as Hp _ _.
  apply res_bind_Ok in Hp as (batch & -> & Hp).
  apply res_bind_Ok in Hp as ([a x] & _ & Hp).
  apply res_bind_Ok in Hp as ([[[[u mu] lu] ft] fb] & Hpred & Hp).
  apply res_bind_Ok in Hp as (M & _ & Hp).
  injection Hp as <-.
  destruct (test_returns_index_helper _ _ _ _ _ Hok Htest)
    as (i & patient & Hi & Hpat).
  unfold PINOModel.predict in Hpred. cbn [fst PINOModel.net] in Hpred.
  apply res_bind_Ok in Hpred as (outs & Hf & Hpred).
  apply res_bind_Ok in Hpred as ([u0 mu0] & Hun & Hpred).
  apply res_bind_Ok in Hpred as (lu0 & _ & Hpred).
  apply res_bind_Ok in Hpred as ([ft0 fb0] & _ & Hpred).
  injection Hpred as -> -> _ _ _.
  destruct outs as [|o1 [|o2 [|o3 outs]]]; try discriminate.
  injection Hun as -> ->.
  exists a, x, mu, i, patient.
  cbn [PINOModel.u_pred PINOModel.mu_pred PINOModel.inds tmap shape data].
  by repeat split.
Qed.

(** * The further theorems on the example inputs *)


Lemma ex_data_sampler_ok :
  sampler_ok (length (PINOData.cohort ex_data)) (PINOData.batch_sampler ex_data).
Proof.
  unfold ex_data. rewrite PINOData_init_sampler.
  apply (BatchSampler_init_ok 2 true ex_rng).
Qed.

Lemma laplacian_empty_range_witness :
  laplacian ex_hessian ex_u ex_x 4 = Raise TypeError.
Proof.
  apply (laplacian_empty_range ex_hessian ex_u ex_x 1 2 4 4);
    [reflexivity|reflexivity|lia].
Defined.

Lemma WaveEquation_call_single_column_witness :
  WaveEquation_call ex_hessian (ex_wave_equation true) ex_x ex_outputs_mu_only
  = Raise RuntimeError.
Proof.
  apply (WaveEquation_call_single_column ex_hessian (ex_wave_equation true)
           ex_x ex_outputs_mu_only 1 1 4 [] []); reflexivity.
Defined.

Lemma laplacian_propagates_error_witness :
  laplacian ex_hessian_failing ex_u ex_x 1 = Raise RuntimeError.
Proof.
  apply (laplacian_propagates_error ex_hessian_failing ex_u ex_x
           1 2 1 4 1 [] [] RuntimeError);
    [reflexivity|reflexivity|lia|reflexivity].
Defined.

Lemma WaveEquation_detach_same_value_witness :
  exists r1 r0,
    WaveEquation_call ex_hessian_dual (WaveEquation_init true None None)
      ex_x_dual ex_outputs_dual = Ok r1
    /\ WaveEquation_call ex_hessian_dual (WaveEquation_init false None None)
         ex_x_dual ex_outputs_dual = Ok r0
    /\ shape r1 = shape r0
    /\ forall n m, n < 1 -> m < 3 ->
         primal (at2 dual_zero r1 n m) = primal (at2 dual_zero r0 n m).
Proof.
  eapply (WaveEquation_detach_same_value ex_hessian_dual None None
            ex_x_dual ex_outputs_dual _ ex_lap_dual 1); reflexivity.
Defined.

Lemma WaveEquation_call_zero_iff_balance_witness :
  exists r, WaveEquation_call ex_hessian (ex_wave_equation true) ex_x ex_outputs
            = Ok r
    /\ forall n m, n < 1 -> m < 3 ->
         (at2 0%R r n m = 0%R
          <-> (at2 0 ex_outputs n 3 * at2 0 ex_lap n m
               = - (rho (ex_wave_equation true)
                    * (2 * PI * at2 0 ex_x n 0) ^ 2 * at2 0 ex_outputs n m))%R).
Proof.
  eapply (WaveEquation_call_zero_iff_balance ex_hessian (ex_wave_equation true)
            ex_x ex_outputs _ ex_lap 1); reflexivity.
Defined.

Lemma lvwe_never_returns_witness :
  lvwe ex_jacobian ex_transpose ex_trace ex_identity ex_divergence
    ex_x ex_u (PyNum 1) (PyNum 1) (PyNum 1) (PyNum 1)
  = Raise (NameError "trace").
Proof.
  eapply (proj2 (lvwe_never_returns ex_jacobian ex_transpose ex_trace
                   ex_identity ex_divergence
                   ex_x ex_u (PyNum 1) (PyNum 1) (PyNum 1) (PyNum 1)));
    reflexivity.
Defined.

Lemma homogeneous_lvwe_never_returns_witness :
  homogeneous_lvwe ex_hessian ex_divergence ex_gradient
    ex_x ex_u (PyNum 1) (PyNum 1) (PyNum 1) (PyNum 1)
  = Raise (NameError "divergence").
Proof.
  eapply (proj2 (homogeneous_lvwe_never_returns ex_hessian ex_divergence
                   ex_gradient
                   ex_x ex_u (PyNum 1) (PyNum 1) (PyNum 1) (PyNum 1)));
    reflexivity.
Defined.

Lemma pressure_homogeneous_lvwe_never_returns_witness :
  pressure_homogeneous_lvwe ex_hessian ex_gradient
    ex_x ex_u (PyNum 1) (PyNum 1) (PyNum 1) (PyNum 1)
  = Raise (NameError "gradient").
Proof.
  eapply (proj2 (pressure_homogeneous_lvwe_never_returns ex_hessian
                   ex_gradient
                   ex_x ex_u (PyNum 1) (PyNum 1) (PyNum 1) (PyNum 1)));
    reflexivity.
Defined.

Lemma incompressible_homogeneous_lvwe_entries_witness :
  exists lap,
    laplacian ex_hessian ex_u ex_x 0 = Ok lap
    /\ exists r,
         incompressible_homogeneous_lvwe ex_hessian ex_x ex_u (PyNum 5)
           (PyNum 1000) (PyNum 1) = Ok (PyTensor r)
         /\ shape r = shape ex_u /\ wf_tensor r
         /\ forall i, i < numel (shape ex_u) ->
              nth i (data r) 0%R
              = (5 * nth i (data lap) 0 + 1000 * 1 ^ 2 * nth i (data ex_u) 0)%R.
Proof.
  eexists. split; [reflexivity|].
  eapply (incompressible_homogeneous_lvwe_entries ex_hessian ex_x ex_u _
            5 1000 1); reflexivity.
Defined.

Lemma get_tensors_missing_anatomy_witness :
  exists k, k ∈ a_sequences /\ arrays ex_patient_no_fat !! k = None
    /\ PINOData.get_tensors ex_data_no_fat 0 None ex_rng
       = (Raise (KeyError k), ex_rng).
Proof.
  apply (get_tensors_missing_anatomy ex_data_no_fat 0 None ex_patient_no_fat
           "t1_pre_fat" ex_rng).
  - reflexivity.
  - apply anatomy_name. vm_compute. tauto.
  - vm_compute. reflexivity.
Defined.

Lemma get_tensors_anatomy_shape_mismatch_witness :
  PINOData.get_tensors ex_data_ragged 0 None ex_rng = (Raise ValueError, ex_rng).
Proof.
  eapply (get_tensors_anatomy_shape_mismatch ex_data_ragged 0 None
            ex_patient_ragged); try reflexivity.
  intros [E _]. vm_compute in E. discriminate E.
Defined.

Lemma train_next_batch_patch_never_returns_witness :
  (exists e,
     (PINOData.train_next_batch ex_data_patch (Some 1) true ex_rng).1.1
     = Raise e)
  /\ exists e, (PINOData.test ex_data_patch true ex_rng).1.1 = Raise e.
Proof.
  apply (train_next_batch_patch_never_returns ex_data_patch 1 (Some 1) true
           ex_rng).
  reflexivity.
Defined.


Lemma test_returns_one_valid_index_witness :
  exists batch self' g' i patient,
    PINOData.test ex_data true ex_rng = (Ok batch, self', g')
    /\ b_inds batch = Some [i]
    /\ PINOData.cohort ex_data !! i = Some patient.
Proof.
  destruct (PINOData.test ex_data true ex_rng) as [[r self'] g'] eqn:E.
  assert (exists batch, r = Ok batch) as [batch ->].
  { pose proof E as E2. vm_compute in E2. injection E2 as <- _ _.
    eexists; reflexivity. }
  destruct (test_returns_one_valid_index ex_data self' ex_rng g' batch
              ex_data_sampler_ok E) as (i & patient & Hi & Hp).
  by exists batch, self', g', i, patient.
Defined.

Lemma losses_rejects_channel_count_witness :
  PINOData.losses ex_data ex_targets_two [ex_a; ex_a] ex_loss_fn
    [ex_a; ex_coords] tt (@None unit)
  = Raise ValueError.
Proof.
  apply (losses_rejects_channel_count ex_data ex_targets_two [1] 2);
    [reflexivity|lia].
Defined.

Lemma reachable_sampler_consistent_witness :
  sampler_ok (length (PINOData.cohort ex_data)) (PINOData.batch_sampler ex_data).
Proof.
  apply (reachable_sampler_consistent ex_data).
  exact (reach_init ex_cohort ex_pde None None None ex_rng).
Defined.

Lemma test_predictions_rescales_modulus_witness :
  exists p self' g' a x mu i patient,
    PINOModel.test_predictions ex_hessian_like ex_model ex_rng
    = (Ok p, self', g')
    /\ forward (PINOModel.net ex_model) (a, set_requires_grad x) true
       = Ok [PINOModel.u_pred p; mu]
    /\ shape (PINOModel.mu_pred p) = shape mu
    /\ data (PINOModel.mu_pred p) = map (fun e => (e * 100)%R) (data mu)
    /\ PINOModel.inds p = Some [i]
    /\ PINOData.cohort (PINOModel.data ex_model) !! i = Some patient.
Proof.
  destruct (PINOModel.test_predictions ex_hessian_like ex_model ex_rng)
    as [[r self'] g'] eqn:E.
  assert (exists p, r = Ok p) as [p ->].
  { pose proof E as E2. vm_compute in E2. injection E2 as <- _ _.
    eexists; reflexivity. }
  destruct (test_predictions_rescales_modulus ex_hessian_like ex_model self'
              ex_rng g' p ex_data_sampler_ok E)
    as (a & x & mu & i & patient & H1 & H2 & H3 & H4 & H5).
  by exists p, self', g', a, x, mu, i, patient.
Defined.

(** A displacement whose Laplacian balances the body force gives a zero
    residual entry. *)
Example residual_zero_at_balance :
  exists r, WaveEquation_call ex_hessian_balanced (ex_wave_equation false)
              ex_x ex_outputs_balanced = Ok r
    /\ at2 0%R r 0 1 = 0%R.
Proof.
  eexists. split; [reflexivity|].
  lazy -[Rplus Rmult Rminus Ropp Rdiv Rinv IZR INR PI pow]. field.
Qed.
